(** * xitool: the database administration tool

    A shallow embedding of [tools/utils/common.py], [tools/utils/database.py]
    and [tools/xitool.py], and the properties of the settings loader, the
    fixture export, the import-file selection, the backup naming and the exit
    status that follow from the code.

    Python [str] values are modelled as [string]; one [ascii] stands for one
    code point, so the model covers text whose code points are below 256.
    The operating system is a POSIX system throughout: [os.sep] is a slash
    and [os.linesep] a line feed. The content of a file is the text stored
    in it; reading and writing in text mode translate the line ends as
    [open] does without a [newline] argument. *)

From Stdlib Require Import ZArith Lia Bool Ascii DecimalString DecimalZ.
From Stdlib Require Strings.Byte.
From stdpp Require Import gmap strings list sorting.

Local Open Scope Z_scope.

(** ** Python built-ins used by the tool *)

Module Py.

(** Exceptions the modelled code can raise, all subclasses of [Exception]. *)
Inductive exn : Type :=
| IndexError
| ValueError
| TypeError
| OSError
| KeyError
| DatabaseError.

(** A computation that returns a value or raises. *)
Inductive result (A : Type) : Type :=
| Ok (a : A)
| Raise (e : exn).
Arguments Ok {A} a.
Arguments Raise {A} e.

Definition bind {A B : Type} (m : result A) (k : A -> result B) : result B :=
  match m with
  | Ok a => k a
  | Raise e => Raise e
  end.

(** [l[i]] on a list, for an index that is not negative. *)
Definition getitem {A : Type} (l : list A) (i : nat) : result A :=
  match nth_error l i with
  | Some a => Ok a
  | None => Raise IndexError
  end.

Definition code (c : ascii) : N := N_of_ascii c.

(** [c.isspace()] for a code point below 256. *)
Definition isspace (c : ascii) : bool :=
  let n := code c in
  ((9 <=? n) && (n <=? 13) || (28 <=? n) && (n <=? 32)
   || (n =? 133) || (n =? 160))%N.

(** [c.lower()] for a code point below 256. *)
Definition lower_char (c : ascii) : ascii :=
  let n := code c in
  if ((65 <=? n) && (n <=? 90)
      || (192 <=? n) && (n <=? 222) && negb (n =? 215))%N
  then ascii_of_N (n + 32) else c.

(** [c.upper()] on the characters [hex()] produces. *)
Definition upper_char (c : ascii) : ascii :=
  let n := code c in
  if ((97 <=? n) && (n <=? 122))%N then ascii_of_N (n - 32) else c.

Fixpoint map_chars (f : ascii -> ascii) (s : string) : string :=
  match s with
  | EmptyString => EmptyString
  | String c s' => String (f c) (map_chars f s')
  end.

Definition lower : string -> string := map_chars lower_char.
Definition upper : string -> string := map_chars upper_char.

(** [s[:n]] and [s[n:]] for [n] not negative. *)
Fixpoint take (n : nat) (s : string) : string :=
  match n, s with
  | S k, String c s' => String c (take k s')
  | _, _ => EmptyString
  end.

Fixpoint drop (n : nat) (s : string) : string :=
  match n, s with
  | S k, String _ s' => drop k s'
  | _, _ => s
  end.

Fixpoint lstrip (s : string) : string :=
  match s with
  | String c s' => if isspace c then lstrip s' else s
  | EmptyString => EmptyString
  end.

Fixpoint rstrip (s : string) : string :=
  match s with
  | EmptyString => EmptyString
  | String c s' =>
      match rstrip s' with
      | EmptyString => if isspace c then EmptyString else String c EmptyString
      | r => String c r
      end
  end.

(** [s.strip()] *)
Definition strip (s : string) : string := rstrip (lstrip s).

(** [s.startswith(p)] *)
Definition startswith (p s : string) : bool := String.prefix p s.

Fixpoint rev_onto (s acc : string) : string :=
  match s with
  | EmptyString => acc
  | String c s' => rev_onto s' (String c acc)
  end.

Definition reverse (s : string) : string := rev_onto s EmptyString.

(** [s.endswith(p)] *)
Definition endswith (p s : string) : bool :=
  String.prefix (reverse p) (reverse s).

(** [s.find(sub)], [None] standing for -1. *)
Fixpoint find (sub s : string) : option nat :=
  if String.prefix sub s then Some 0%nat
  else match s with
       | EmptyString => None
       | String _ s' => S <$> find sub s'
       end.

(** [sub in s] *)
Definition contains (sub s : string) : bool :=
  match find sub s with Some _ => true | None => false end.

(** [s.index(sub)] *)
Definition index (sub s : string) : result nat :=
  match find sub s with
  | Some i => Ok i
  | None => Raise ValueError
  end.

(** [s.split(sep)] for a separator that is not empty: [skip] counts the
    characters of a separator found earlier that are still to be passed. *)
Fixpoint split_go (sep : string) (skip : nat) (s : string) : list string :=
  match s with
  | EmptyString => [EmptyString]
  | String c s' =>
      match skip with
      | S k => split_go sep k s'
      | O =>
          if String.prefix sep s
          then EmptyString :: split_go sep (String.length sep - 1) s'
          else match split_go sep 0 s' with
               | h :: t => String c h :: t
               | [] => [String c EmptyString]
               end
      end
  end.

Definition split (sep s : string) : list string := split_go sep 0 s.

(** [s.rsplit(sep)], which looks for the separator from the right. *)
Definition rsplit (sep s : string) : list string :=
  rev (map reverse (split (reverse sep) (reverse s))).

(** [s.split(sep, 1)] *)
Definition split1 (sep s : string) : list string :=
  match find sep s with
  | Some i => [take i s; drop (i + String.length sep) s]
  | None => [s]
  end.

(** [s.split()]: the runs of characters that are not white space. *)
Fixpoint split_ws_go (cur : option string) (s : string) : list string :=
  match s with
  | EmptyString => match cur with Some w => [reverse w] | None => [] end
  | String c s' =>
      if isspace c
      then match cur with
           | Some w => reverse w :: split_ws_go None s'
           | None => split_ws_go None s'
           end
      else match cur with
           | Some w => split_ws_go (Some (String c w)) s'
           | None => split_ws_go (Some (String c EmptyString)) s'
           end
  end.

Definition split_ws (s : string) : list string := split_ws_go None s.

(** [s.replace(old, new)] for a one-character [old]. *)
Fixpoint replace (old : ascii) (new : string) (s : string) : string :=
  match s with
  | EmptyString => EmptyString
  | String c s' =>
      if Ascii.eqb c old then new +:+ replace old new s'
      else String c (replace old new s')
  end.

(** [sep.join(l)] *)
Definition join (sep : string) (l : list string) : string :=
  String.concat sep l.

(** [str(z)] for an [int]. *)
Definition str_of_int (z : Z) : string :=
  NilZero.string_of_int (Z.to_int z).

Definition digit (c : ascii) : option Z :=
  let n := code c in
  if ((48 <=? n) && (n <=? 57))%N then Some (Z.of_N n - 48) else None.

(** The digits of an [int] literal; single underscores may separate them. *)
Fixpoint int_digits (acc : Z) (after_digit : bool) (s : string) : option Z :=
  match s with
  | EmptyString => if after_digit then Some acc else None
  | String c s' =>
      match digit c with
      | Some d => int_digits (10 * acc + d) true s'
      | None =>
          if Ascii.eqb c "_" && after_digit then
            match s' with
            | String c' _ =>
                match digit c' with
                | Some _ => int_digits acc false s'
                | None => None
                end
            | EmptyString => None
            end
          else None
      end
  end.

(** [int(s)] for a [str]. *)
Definition int_of_str (s : string) : result Z :=
  let r :=
    match strip s with
    | String "-" s' => Z.opp <$> int_digits 0 false s'
    | String "+" s' => int_digits 0 false s'
    | s' => int_digits 0 false s'
    end in
  match r with
  | Some z => Ok z
  | None => Raise ValueError
  end.

Definition hex_digit (n : N) : ascii :=
  if (n <? 10)%N then ascii_of_N (48 + n) else ascii_of_N (87 + n).

(** [b.hex()] for [bytes]. *)
Fixpoint hex (b : list Byte.byte) : string :=
  match b with
  | [] => EmptyString
  | x :: b' =>
      let n := Byte.to_N x in
      String (hex_digit (n / 16)) (String (hex_digit (n mod 16)) (hex b'))
  end.

(** [b.decode('latin_1')] *)
Definition decode_latin_1 (b : list Byte.byte) : string :=
  String.string_of_list_byte b.

(** [os.path.join(a, b)] on a POSIX system. *)
Definition path_join (a b : string) : string :=
  if startswith "/" b then b
  else if String.eqb a EmptyString || endswith "/" a then a +:+ b
  else a +:+ "/" +:+ b.

(** Truth value of an optional [str]: [None] and [''] are false. *)
Definition truthy (o : option string) : bool :=
  match o with
  | Some s => negb (String.eqb s EmptyString)
  | None => false
  end.

End Py.

Notation "'let*' x := m 'in' k" := (Py.bind m (fun x => k))
  (at level 10, x name, m at level 100, k at level 200).

Import Py.

(** ** [utils/common.py] *)

Module Common.

(** [Common.configs], as [config.yaml] holds it. *)
Record configs : Type := {
  db_ver : option string;
  mysql_bin : string
}.

(** What [populate_settings] sees of the file system. *)
Record dirs : Type := {
  listdir : string -> list string;
  isfile : string -> bool;
  readlines : string -> result (list string)
}.

Definition newline : string := String "010" EmptyString.
Definition quote : string := String "034" EmptyString.

(** [s[:-n]] *)
Definition drop_last (n : nat) (s : string) : string :=
  take (String.length s - n) s.

(** The state of the loop over the lines of one file: [current_settings],
    and whether that dictionary is the one stored in [Common.settings]
    under the file's key. *)
Definition file_state : Type := gmap string string * bool.

(** One iteration of the loop over the lines of a settings file; [None] is
    [break]. A line that is commented out leaves the state as it is
    ([continue]); every other line stores [current_settings]. *)
Definition settings_line (line : string) (st : file_state)
  : option file_state :=
  let '(current_settings, stored) := st in
  if String.eqb line EmptyString then None
  else if contains "=" line then
    let line := replace "010" EmptyString line in
    let parts := split1 "=" line in
    let key := strip (nth 0 parts EmptyString) in
    let val := strip (nth 1 parts EmptyString) in
    if startswith "--" key then Some (current_settings, stored)
    else
      let val := strip (nth 0 (rsplit "--" val) EmptyString) in
      let val := if startswith quote val then drop 1 val else val in
      let val := if endswith "," val then drop_last 1 val else val in
      let val := if endswith quote val then drop_last 1 val else val in
      Some (<[key := val]> current_settings, true)
  else Some (current_settings, true).

Fixpoint settings_lines (lines : list string) (st : file_state)
  : file_state :=
  match lines with
  | [] => st
  | line :: rest =>
      match settings_line line st with
      | Some st' => settings_lines rest st'
      | None => st
      end
  end.

(** [filename[:-4].split(os.sep)[-1]] *)
Definition filename_key (filename : string) : string :=
  List.last (split "/" (drop_last 4 filename)) EmptyString.

(** The body of [with open(filename) as f]. [current_settings] is the
    dictionary stored under the key when there is one, so writing to it
    writes to [Common.settings]; a fresh dictionary is stored by the first
    line that reaches the assignment. *)
Definition load_file (filename : string) (lines : list string)
    (settings : gmap string (gmap string string))
  : gmap string (gmap string string) :=
  let key := filename_key filename in
  let current_settings := default ∅ (settings !! key) in
  let stored := bool_decide (is_Some (settings !! key)) in
  let '(current_settings, stored) :=
    settings_lines lines (current_settings, stored) in
  if stored then <[key := current_settings]> settings else settings.

Definition populate_entry (fs : dirs) (path_to_settings : string)
    (settings : gmap string (gmap string string)) (name : string)
  : gmap string (gmap string string) :=
  let filename := path_join path_to_settings name in
  if isfile fs filename then
    match readlines fs filename with
    | Ok lines => load_file filename lines settings
    | Raise _ => settings
    end
  else settings.

Definition populate_dir (fs : dirs) (path_to_settings : string)
    (settings : gmap string (gmap string string))
  : gmap string (gmap string string) :=
  fold_left (populate_entry fs path_to_settings)
    (listdir fs path_to_settings) settings.

Definition default_dir (root_path : string) : string :=
  path_join (path_join root_path "settings") "default".

Definition override_dir (root_path : string) : string :=
  path_join root_path "settings".

(** [Common.populate_settings], from [Common.settings] to its new value. *)
Definition populate_settings (fs : dirs) (root_path : string)
    (settings : gmap string (gmap string string))
  : gmap string (gmap string string) :=
  fold_left (fun settings path_to_settings =>
               populate_dir fs path_to_settings settings)
    [default_dir root_path; override_dir root_path] settings.

(** [Common.settings[file][key]], which raises when a key is missing. *)
Definition settings_item (settings : gmap string (gmap string string))
    (file key : string) : result string :=
  match settings !! file with
  | Some entries =>
      match entries !! key with
      | Some val => Ok val
      | None => Raise KeyError
      end
  | None => Raise KeyError
  end.

(** [Common.settings[file][key]], when both keys are there. *)
Definition setting (settings : gmap string (gmap string string))
    (file key : string) : option string :=
  settings !! file ≫= (.!! key).

End Common.

(** ** [utils/database.py] *)

Module Database.

Definition protected_tables : list string :=
  [ "accounts"; "accounts_banned"; "auction_house_items"; "auction_house";
    "char_blacklist"; "char_chocobos"; "char_effects"; "char_equip";
    "char_equip_saved"; "char_exp"; "char_history"; "char_inventory";
    "char_jobs"; "char_job_points"; "char_look"; "char_merit"; "char_pet";
    "char_points"; "char_profile"; "char_skills"; "char_spells";
    "char_stats"; "char_storage"; "char_style"; "char_unlocks";
    "char_vars"; "chars"; "conquest_system"; "delivery_box";
    "ip_exceptions"; "linkshells"; "server_variables"; "unity_system" ].

(** *** Values fetched from the database *)

(** The two renderings of a Python [float] that [export_table] uses:
    [str(value)] and [f"{value:.{scale}f}"]. *)
Class FloatRepr (F : Type) : Type := {
  float_str : F -> string;
  float_fixed : Z -> F -> string
}.

(** A field of a fetched row: [None], [bytes], [str], [int] or [float]. *)
Inductive value (F : Type) : Type :=
| VNone
| VBytes (b : list Byte.byte)
| VStr (s : string)
| VInt (z : Z)
| VFloat (f : F).
Arguments VNone {F}.
Arguments VBytes {F} b.
Arguments VStr {F} s.
Arguments VInt {F} z.
Arguments VFloat {F} f.

(** The entries of a [cursor.description] tuple that are read: the type
    code at index 1 and the scale at index 5. *)
Record column : Type := {
  type_code : Z;
  scale : Z
}.

(** [mariadb.constants.FIELD_TYPE.FLOAT] *)
Definition FIELD_TYPE_FLOAT : Z := 4.

(** *** [sql_variables]: a [dict] from the text of a value to a name,
    in insertion order; assigning to a key that is there keeps its place. *)

Definition dict : Type := list (string * string).

Fixpoint dict_set (k v : string) (d : dict) : dict :=
  match d with
  | [] => [(k, v)]
  | (k', v') :: d' =>
      if String.eqb k' k then (k', v) :: d'
      else (k', v') :: dict_set k v d'
  end.

Fixpoint dict_get (k : string) (d : dict) : option string :=
  match d with
  | [] => None
  | (k', v') :: d' => if String.eqb k' k then Some v' else dict_get k d'
  end.

Definition dict_keys (d : dict) : list string := map fst d.

(** The name and the value of a line that declares a variable: the second
    word of [parts[0]], and [parts[1]] without its semicolons, up to the
    first [--], stripped. *)
Definition parse_set (line : string) : result (string * string) :=
  let parts := split "=" (strip line) in
  let* part0 := getitem parts 0 in
  let* var_name := getitem (split_ws part0) 1 in
  let* part1 := getitem parts 1 in
  let var_value :=
    strip (nth 0 (split "--" (replace ";" EmptyString part1)) EmptyString) in
  Ok (var_name, var_value).

(** "Scan for variables" *)
Definition scan_variables (line : string) (sql_variables : dict)
  : result dict :=
  if startswith "SET @" (strip line) then
    let* nv := parse_set line in
    Ok (dict_set (snd nv) (fst nv) sql_variables)
  else Ok sql_variables.

(** "Scan for INSERT": the end of the match of
    [insert into `{table_name}` values \(] at the start of the stripped,
    lower-cased line. The table name is taken to be a plain identifier, so
    that the pattern matches itself and nothing else. *)
Definition insert_pattern (table_name : string) : string :=
  "insert into `" +:+ table_name +:+ "` values (".

Definition insert_start (table_name line : string) : option nat :=
  let lowercase_line := lower (strip line) in
  if startswith (insert_pattern table_name) lowercase_line
  then Some (String.length (insert_pattern table_name))
  else None.

(** *** Formatting one value *)

(** The loop that looks for a byte outside the printable characters. *)
Fixpoint is_text (value : list Byte.byte) : bool :=
  match value with
  | [] => true
  | j :: rest =>
      if ((Byte.to_N j <? 32) || (126 <? Byte.to_N j))%N then false
      else is_text rest
  end.

Definition hex_literal (value : list Byte.byte) : string :=
  "0x" +:+ upper (hex value).

Definition quoted (s : string) : string := "'" +:+ s +:+ "'".

(** The value with a backslash put before each single quote. *)
Definition escape (s : string) : string := replace "'" "\'" s.

Section Format.
Context {F : Type} `{FloatRepr F}.

(** [str(value)] for a number. *)
Definition str_of_number (v : value F) : string :=
  match v with
  | VInt z => str_of_int z
  | VFloat f => float_str f
  | _ => EmptyString
  end.

(** [f"{value:.{scale}f}"] for a number. *)
Definition fixed_of_number (scale : Z) (v : value F) : string :=
  match v with
  | VInt z =>
      str_of_int z +:+ "." +:+
      String.string_of_list_ascii (repeat "0"%char (Z.to_nat scale))
  | VFloat f => float_fixed scale f
  | _ => EmptyString
  end.

(** [value & int(var)] as a condition. *)
Definition bit_set (v : value F) (var : string) : result bool :=
  let* n := int_of_str var in
  match v with
  | VInt z => Ok (negb (Z.land z n =? 0))
  | _ => Raise TypeError
  end.

(** The loop over [sql_variables.keys()] that fills [var_list]. *)
Fixpoint var_list (sql_variables : dict) (v : value F) (keys : list string)
  : result (list string) :=
  match keys with
  | [] => Ok []
  | var :: rest =>
      let* b := bit_set v var in
      let* l := var_list sql_variables v rest in
      Ok (if b
          then default EmptyString (dict_get var sql_variables) :: l
          else l)
  end.

(** The text appended to [updated_values] for the value at index [i]. *)
Definition format_value (table_name : string) (description : list column)
    (sql_variables : dict) (i : nat) (v : value F) : result string :=
  match v with
  | VNone => Ok "NULL"
  | VBytes b =>
      if Nat.eqb (length b) 0 then Ok "''"
      else if String.eqb table_name "npc_list" && Nat.eqb i 1 then
        if is_text b then Ok (quoted (decode_latin_1 b))
        else Ok (hex_literal b)
      else Ok (hex_literal b)
  | VStr s => Ok (quoted (escape s))
  | _ =>
      if String.eqb table_name "mob_droplist" && Nat.eqb i 5
         && bool_decide (is_Some (dict_get (str_of_number v) sql_variables))
      then Ok (default EmptyString
                 (dict_get (str_of_number v) sql_variables))
      else if String.eqb table_name "pet_skills" && Nat.eqb i 9 then
        let* l := var_list sql_variables v (dict_keys sql_variables) in
        Ok (join " | " l)
      else
        let* col := getitem description i in
        if (type_code col =? FIELD_TYPE_FLOAT) && (0 <? scale col)
        then Ok (fixed_of_number (scale col) v)
        else Ok (str_of_number v)
  end.

(** [for i, value in enumerate(values)], from index [i] on. *)
Fixpoint format_values (table_name : string) (description : list column)
    (sql_variables : dict) (i : nat) (values : list (value F))
  : result (list string) :=
  match values with
  | [] => Ok []
  | v :: rest =>
      let* s := format_value table_name description sql_variables i v in
      let* l :=
        format_values table_name description sql_variables (S i) rest in
      Ok (s :: l)
  end.

(** *** Rewriting the lines *)

(** "Append any comments, preserving whitespace" *)
Definition append_comment (line updated_line : string) : result string :=
  if contains "--" line then
    let* i := index ");" line in
    let insert_end := (i + 2)%nat in
    let before_comment :=
      nth 0 (split "--" (drop insert_end line)) EmptyString in
    Ok (updated_line +:+ before_comment
        +:+ drop (insert_end + String.length before_comment) line)
  else Ok (updated_line +:+ Common.newline).

(** The state of the loop over the lines of the file. *)
Record export_state : Type := {
  sql_variables : dict;
  updated_lines : list string;
  row_index : nat
}.

Definition export_init : export_state :=
  {| sql_variables := []; updated_lines := []; row_index := 0 |}.

(** The body of [for line in sql_lines]. *)
Definition export_line (table_name : string) (rows : list (list (value F)))
    (description : list column) (st : export_state) (line : string)
  : result export_state :=
  let* vars := scan_variables line (sql_variables st) in
  match insert_start table_name line with
  | Some insert_start_end =>
      let* values := getitem rows (row_index st) in
      let* updated_values :=
        format_values table_name description vars 0 values in
      let values := join "," updated_values in
      let updated_line := take insert_start_end line +:+ values +:+ ");" in
      let* updated_line := append_comment line updated_line in
      Ok {| sql_variables := vars;
            updated_lines := updated_lines st ++ [updated_line];
            row_index := S (row_index st) |}
  | None =>
      Ok {| sql_variables := vars;
            updated_lines := updated_lines st ++ [line];
            row_index := row_index st |}
  end.

Fixpoint export_lines (table_name : string) (rows : list (list (value F)))
    (description : list column) (st : export_state)
    (sql_lines : list string) : result export_state :=
  match sql_lines with
  | [] => Ok st
  | line :: rest =>
      let* st' := export_line table_name rows description st line in
      export_lines table_name rows description st' rest
  end.

(** *** The database and the fixture files *)

(** What [SELECT * FROM table] delivers: the rows and the description. *)
Record table : Type := {
  rows : list (list (value F));
  description : list column
}.

(** The tables of the database and the text files on disk. *)
Record world : Type := {
  tables : gmap string table;
  files : gmap string string
}.

(** What a file opened for reading in text mode delivers of the text
    stored: a carriage return with the line feed after it, and a carriage
    return alone, are read as one line feed. *)
Fixpoint universal_newlines (stored : string) : string :=
  match stored with
  | EmptyString => EmptyString
  | String c rest =>
      if Ascii.eqb c "013" then
        String "010"
          match rest with
          | String c' rest' =>
              if Ascii.eqb c' "010" then universal_newlines rest'
              else universal_newlines rest
          | EmptyString => EmptyString
          end
      else String c (universal_newlines rest)
  end.

(** The lines of a text, each with the line feed that ends it. *)
Fixpoint line_feed_lines (text : string) : list string :=
  match text with
  | EmptyString => []
  | String c rest =>
      if Ascii.eqb c "010" then String c EmptyString :: line_feed_lines rest
      else match line_feed_lines rest with
           | [] => [String c EmptyString]
           | l :: ls => String c l :: ls
           end
  end.

(** [file.readlines()] on a file opened with ["r"], from the text stored:
    the lines with their line ends, after the translation of the line
    ends. *)
Definition readlines (content : string) : list string :=
  line_feed_lines (universal_newlines content).

(** [os.linesep] *)
Definition linesep : string := Common.newline.

(** What a file opened for writing in text mode stores of a text: every
    line feed as [os.linesep]. *)
Definition stored_text (text : string) : string :=
  replace "010" linesep text.

(** [file.writelines(lines)] on a file opened with ["w"]: the text that
    the file stores. *)
Definition writelines (lines : list string) : string :=
  stored_text (String.concat EmptyString lines).

Definition fixture_path (root_path table_name : string) : string :=
  path_join (path_join root_path "sql") (table_name +:+ ".sql").

Definition fetchall (w : world) (table_name : string) : result table :=
  match tables w !! table_name with
  | Some t => Ok t
  | None => Raise DatabaseError
  end.

Definition read_fixture (w : world) (path : string)
  : result (list string) :=
  match files w !! path with
  | Some content => Ok (readlines content)
  | None => Raise OSError
  end.

(** The statements of the [try] block up to the second [open]. *)
Definition export_updated_lines (root_path : string) (w : world)
    (table_name : string) : result (list string) :=
  let* t := fetchall w table_name in
  let* sql_lines := read_fixture w (fixture_path root_path table_name) in
  let* st :=
    export_lines table_name (rows t) (description t) export_init
      sql_lines in
  Ok (updated_lines st).

(** [Database.export_table]: the world it leaves, and the exception it
    prints when one was raised. It returns in both cases. *)
Definition export_table (root_path : string) (w : world)
    (table_name : string) : world * option exn :=
  match export_updated_lines root_path w table_name with
  | Ok lines =>
      ({| tables := tables w;
          files := <[fixture_path root_path table_name :=
                       writelines lines]> (files w) |}, None)
  | Raise e => (w, Some e)
  end.

End Format.

(** *** Selecting the files to import *)

(** What [fetch_files] and [create] see of the file system and of the
    repository: [os.path.exists], the file names of the first directory
    that [os.walk] yields ([None] when it yields nothing), the [b_path]s of
    [repo.commit(a).diff(b, paths=p)], the lines of a text file,
    [Path.is_dir], the sorted result of [Path.glob("**/*.sql")] as
    strings, and [os.path.normpath]. *)
Record tree : Type := {
  path_exists : string -> bool;
  walk_filenames : string -> option (list string);
  diff_b_paths : string -> string -> string -> result (list (option string));
  text_lines : string -> result (list string);
  is_dir : string -> bool;
  glob_sql : string -> list string;
  normpath : string -> string
}.

(** [sorted(l)] and [l.sort()] on strings. *)
Definition sorted (l : list string) : list string :=
  merge_sort String.le l.

Definition sql_dir (root_path : string) : string :=
  path_join root_path "sql".

Definition sql_file (root_path name : string) : string :=
  path_join (sql_dir root_path) name.

Definition triggers_file (root_path : string) : string :=
  sql_file root_path "triggers.sql".

Definition in_list (x : string) (l : list string) : bool :=
  existsb (String.eqb x) l.

(** The loop over [sql_diffs]; a diff without a [b_path] makes
    [os.path.join] raise, which ends the loop with the files found so far. *)
Fixpoint diff_files (t : tree) (root_path : string)
    (sql_diffs : list (option string)) (import_files : list string)
  : list string :=
  match sql_diffs with
  | [] => import_files
  | Some b_path :: rest =>
      let file := path_join root_path b_path in
      diff_files t root_path rest
        (if path_exists t file then import_files ++ [file]
         else import_files)
  | None :: _ => import_files
  end.

(** The files of the [sql] directory that are not those of protected
    tables. *)
Definition walk_files (t : tree) (root_path : string) : list string :=
  match walk_filenames t (sql_dir root_path) with
  | Some filenames =>
      map (sql_file root_path)
        (List.filter (fun filename =>
                   endswith ".sql" filename
                   && negb (in_list (Common.drop_last 4 filename)
                              protected_tables))
           (sorted filenames))
  | None => []
  end.

(** [import_files] before it is sorted. *)
Definition changed_files (cfg : Common.configs) (version : string)
    (t : tree) (root_path : string) : list string :=
  if truthy (Common.db_ver cfg) && truthy (Some version) then
    match diff_b_paths t (default EmptyString (Common.db_ver cfg)) version
            (sql_dir root_path) with
    | Ok sql_diffs => diff_files t root_path sql_diffs []
    | Raise _ => []
    end
  else walk_files t root_path.

(** [l.index(x)] *)
Fixpoint list_index (x : string) (l : list string) : option nat :=
  match l with
  | [] => None
  | y :: l' => if String.eqb y x then Some 0%nat else S <$> list_index x l'
  end.

(** [l.pop(i)]: the list that is left. *)
Fixpoint pop (i : nat) (l : list string) : list string :=
  match i, l with
  | _, [] => []
  | O, _ :: l' => l'
  | S k, y :: l' => y :: pop k l'
  end.

(** [import_files.append(import_files.pop(import_files.index(triggers)))],
    and nothing when [index] raises. *)
Definition triggers_last (root_path : string) (import_files : list string)
  : list string :=
  match list_index (triggers_file root_path) import_files with
  | Some i =>
      match nth_error import_files i with
      | Some x => pop i import_files ++ [x]
      | None => import_files
      end
  | None => import_files
  end.

(** The files that one line of [modules/init.txt] adds. *)
Definition module_files (t : tree) (root_path : string) (line : string)
  : list string :=
  if negb (startswith "#" line)
     && negb (String.eqb (strip line) EmptyString)
     && negb (in_list line [String "010" EmptyString;
                            String "013" (String "010" EmptyString)])
  then
    let line := path_join (path_join root_path "modules") (strip line) in
    if is_dir t line then glob_sql t line
    else if endswith ".sql" line then [line] else []
  else [].

Definition init_txt (root_path : string) : string :=
  path_join (path_join root_path "modules") "init.txt".

(** The fixtures of the [sql] directory that [fetch_files] selects, in the
    order it gives them. *)
Definition sql_files (cfg : Common.configs) (version : string) (t : tree)
    (root_path : string) : list string :=
  triggers_last root_path (sorted (changed_files cfg version t root_path)).

(** [Database.fetch_files] *)
Definition fetch_files (cfg : Common.configs) (version : string) (t : tree)
    (root_path : string) : result (list string) :=
  let import_files := sql_files cfg version t root_path in
  let* lines := text_lines t (init_txt root_path) in
  Ok (import_files ++ concat (map (module_files t root_path) lines)).

(** A row as the cursor returns it for a one-column query, and a [str]:
    the two kinds of object that [update] compares. *)
Inductive obj : Type :=
| OStr (s : string)
| OTuple (items : list string).

(** [a == b] *)
Definition obj_eqb (a b : obj) : bool :=
  match a, b with
  | OStr x, OStr y => String.eqb x y
  | OTuple x, OTuple y => bool_decide (x = y)
  | _, _ => false
  end.

(** [Database.check_missing]: [schema] lists the tables that
    [information_schema] has for the database. The query selects those of
    them that are in [table_list]; an empty [IN ()] is refused by the
    server. *)
Definition check_missing (schema : list string) (table_list : list string)
  : result (list obj) :=
  match table_list with
  | [] => Raise DatabaseError
  | _ =>
      let tables :=
        map (fun name => OTuple [name])
          (List.filter (fun name => in_list name table_list) schema) in
      Ok (fold_left (fun missing_tables value => missing_tables ++ [value])
            tables [])
  end.

Definition protected_file (root_path value : string) : string :=
  sql_file root_path (value +:+ ".sql").

(** [Database.update]: the [import_files] it computes. *)
Definition update (cfg : Common.configs) (version : string) (t : tree)
    (schema : list string) (root_path : string) : result (list string) :=
  let* missing := check_missing schema protected_tables in
  let import_files :=
    map (protected_file root_path)
      (List.filter (fun value => negb (existsb (obj_eqb (OStr value)) missing))
         protected_tables) in
  let* files := fetch_files cfg version t root_path in
  Ok (import_files ++ files).

(** [str.splitlines()] *)
Definition is_linebreak (c : ascii) : bool :=
  let n := code c in
  ((10 <=? n) && (n <=? 13) || (28 <=? n) && (n <=? 30) || (n =? 133))%N.

Fixpoint splitlines_go (cur : string) (s : string) : list string :=
  match s with
  | EmptyString =>
      if String.eqb cur EmptyString then [] else [reverse cur]
  | String c s' =>
      if is_linebreak c then
        reverse cur ::
          match s' with
          | String c' s'' =>
              if Ascii.eqb c "013" && Ascii.eqb c' "010"
              then splitlines_go EmptyString s''
              else splitlines_go EmptyString s'
          | EmptyString => splitlines_go EmptyString s'
          end
      else splitlines_go (String c cur) s'
  end.

Definition splitlines (s : string) : list string :=
  splitlines_go EmptyString s.

(** What is read of a finished process: its return code and what it wrote
    to the standard error stream. *)
Record completed : Type := {
  returncode : Z;
  stderr : string
}.

(** [Database.fetch_errors] *)
Definition fetch_errors (r : completed) : list string :=
  List.filter (fun line =>
            negb (contains
                    "Using a password on the command line interface can be insecure"
                    line))
    (splitlines (stderr r)).

(** The import list of [Database.create]; [db_ver] is set to [None]
    before [fetch_files] runs. *)
Definition create_import_files (cfg : Common.configs) (version : string)
    (t : tree) (root_path : string) : result (list string) :=
  let cfg := {| Common.db_ver := None;
                Common.mysql_bin := Common.mysql_bin cfg |} in
  let import_files := map (protected_file root_path) protected_tables in
  let* files := fetch_files cfg version t root_path in
  Ok (import_files ++ files).

(** The loop of [create] over the import list: the errors of the files
    that exist. *)
Definition import_errors (t : tree) (import_file : string -> completed)
    (import_files : list string) : list string :=
  concat
    (map (fun sql_file =>
            let sql_file := replace "\" "/" (normpath t sql_file) in
            if path_exists t sql_file
            then fetch_errors (import_file sql_file) else [])
       import_files).

(** The body of [class Database] up to the connection, which runs when
    [utils.database] is imported: whether the connection was made.
    [connect] is the outcome of [mariadb.connect] and of
    [connection.cursor]; after a [mariadb.Error], here [DatabaseError],
    the class body calls [Common.close(-1)]. A missing setting and a port
    that is no integer raise, and nothing catches them. *)
Definition class_body (settings : gmap string (gmap string string))
    (connect : string -> Z -> string -> string -> result unit)
  : result bool :=
  let* host := Common.settings_item settings "network" "SQL_HOST" in
  let* port_text := Common.settings_item settings "network" "SQL_PORT" in
  let* port := int_of_str port_text in
  let* user := Common.settings_item settings "network" "SQL_LOGIN" in
  let* passwd := Common.settings_item settings "network" "SQL_PASSWORD" in
  match connect host port user passwd with
  | Ok _ => Ok true
  | Raise DatabaseError => Ok false
  | Raise e => Raise e
  end.

(** [Database.create]: whether the database was set up without errors.
    [drop_database] is the outcome of the [DROP DATABASE] statement,
    [mysqladmin] the finished process that created the database,
    [select_database] the outcome of the assignment to
    [connection.database], and [write_configs] that of
    [Common.write_configs]. *)
Definition create (cfg : Common.configs) (version : string) (t : tree)
    (root_path : string) (drop_database : result unit)
    (mysqladmin : completed) (select_database : result unit)
    (import_file : string -> completed) (write_configs : result unit)
  : result bool :=
  let* _ := drop_database in
  let errors := fetch_errors mysqladmin in
  let* _ := select_database in
  let* import_files := create_import_files cfg version t root_path in
  let errors := errors ++ import_errors t import_file import_files in
  match errors with
  | [] => let* _ := write_configs in Ok true
  | _ :: _ => Ok false
  end.

(** The name of the file that [Database.backup] writes in [out_dir]:
    the database, the time and a tag. *)
Definition backup_tag (tables : option (list string))
    (db_ver : option string) : string :=
  match tables with
  | Some (_ :: _) => "lite"
  | _ => if truthy db_ver then default EmptyString db_ver else "full"
  end.

Definition backup_file_name (database timestamp : string)
    (tables : option (list string)) (db_ver : option string) : string :=
  database +:+ "-" +:+ timestamp +:+ "-" +:+ backup_tag tables db_ver
  +:+ ".sql".

(** [outfile_path] *)
Definition backup_path (t : tree) (out_dir database timestamp : string)
    (tables : option (list string)) (db_ver : option string) : string :=
  replace "\" "/"
    (normpath t
       (path_join out_dir
          (backup_file_name database timestamp tables db_ver))).

End Database.

(** ** [xitool.py] *)

Module Xitool.

(** The parsed command line. *)
Record args : Type := {
  backup : bool;
  lite : bool;
  command : option string;
  yes : bool;
  database_name : string;
  import_file : string;
  table_name : option string;
  all : bool
}.

(** What [main] finds around it: the paths and versions of [Common], the
    database name of the settings, the file system, the tables of the
    schema, and the outcomes of the programs and statements it runs.
    [backup_process] takes the path of the file to write and raises when
    that file cannot be opened. [drop_database],
    [select_created_database] and [write_configs] are the outcomes of the
    statements of [Database.create] that can raise, and [select_database]
    that of the assignment to [Database.connection.database] in [main]. *)
Record system : Type := {
  root_path : string;
  configs : Common.configs;
  version : string;
  sql_database : string;
  files_seen : Database.tree;
  schema : list string;
  now : string;
  check_mysql_bin : bool;
  backup_process : string -> result Database.completed;
  drop_database : result unit;
  mysqladmin : Database.completed;
  select_created_database : result unit;
  import_process : string -> Database.completed;
  write_configs : result unit;
  select_database : result unit;
  populate_migrations : result unit
}.

(** [l.remove(x)] *)
Fixpoint list_remove (x : string) (l : list string) : result (list string) :=
  match l with
  | [] => Raise ValueError
  | y :: l' =>
      if String.eqb y x then Ok l'
      else let* r := list_remove x l' in Ok (y :: r)
  end.

Section Main.
Context {F : Type} `{Database.FloatRepr F}.

(** The "Backup" step: the status it leaves. *)
Definition backup_step (sys : system) (a : args) : result Z :=
  if backup a || lite a then
    let out_dir :=
      path_join (path_join (root_path sys) "sql") "backups" in
    let tables :=
      if lite a then Some Database.protected_tables else None in
    let* r :=
      backup_process sys
        (Database.backup_path (files_seen sys) out_dir (sql_database sys)
           (now sys) tables (Common.db_ver (configs sys))) in
    Ok (Database.returncode r)
  else Ok 0.

Definition is_command (a : args) (names : list string) : bool :=
  match command a with
  | Some c => Database.in_list c names
  | None => false
  end.




(** The tables that [export --all] goes through. *)
Definition export_tables (sys : system) : result (list string) :=
  let names :=
    match Database.walk_filenames (files_seen sys)
            (Database.sql_dir (root_path sys)) with
    | Some filenames =>
        map (Common.drop_last 4)
          (List.filter (endswith ".sql") (Database.sorted filenames))
    | None => []
    end in
  list_remove "triggers" names.

Definition export_each (sys : system) (tables : list string)
    (w : Database.world) : Database.world :=
  fold_left
    (fun w table =>
       if Database.in_list table Database.protected_tables then w
       else fst (Database.export_table (root_path sys) w table))
    tables w.

Definition export_step (sys : system) (a : args) (status : Z)
    (w : Database.world) : result (Z * Database.world) :=
  if negb (truthy (table_name a)) && negb (all a) then Ok (-1, w)
  else if all a then
    let* tables := export_tables sys in
    Ok (status, export_each sys tables w)
  else
    Ok (status,
        fst (Database.export_table (root_path sys) w
               (default EmptyString (table_name a)))).





End Main.

End Xitool.

(** * Notions used to state the properties, and sample data *)

Import Database.

(** A database without [float] values. *)
Definition no_float : FloatRepr Empty_set :=
  {| float_str := Empty_set_rect (fun _ => string);
     float_fixed _ := Empty_set_rect (fun _ => string) |}.

#[local] Existing Instance no_float.

(** The bytes of the printable ASCII characters, and the others. *)
Definition printable (j : Byte.byte) : Prop :=
  (32 <= Byte.to_N j /\ Byte.to_N j <= 126)%N.

Definition unprintable (j : Byte.byte) : Prop :=
  (Byte.to_N j < 32 \/ 126 < Byte.to_N j)%N.

(** A checkout in [/srv] with three fixtures and one module file. *)
Definition sample_tree : tree := {|
  path_exists _ := true;
  walk_filenames p :=
    if String.eqb p "/srv/sql"
    then Some ["zones.sql"; "triggers.sql"; "abilities.sql"]
    else None;
  diff_b_paths _ _ _ := Ok [];
  text_lines _ := Ok ["extra.sql"];
  is_dir _ := false;
  glob_sql _ := [];
  normpath p := p
|}.

Definition sample_configs : Common.configs :=
  {| Common.db_ver := None; Common.mysql_bin := "/usr/bin" |}.

(** [l] lists everything selected before the triggers fixture, and only the
    files of the modules after it. *)
Definition triggers_then_modules (t : tree) (root_path : string)
    (selected l : list string) : Prop :=
  exists (before lines : list string),
    text_lines t (init_txt root_path) = Ok lines
    /\ l = before ++ triggers_file root_path
                     :: concat (map (module_files t root_path) lines)
    /\ forall f, In f selected -> f <> triggers_file root_path -> In f before.

(** [sql_variables] after the loop has gone through [lines]. *)
Fixpoint scan_lines (lines : list string) (vars : dict) : result dict :=
  match lines with
  | [] => Ok vars
  | line :: rest =>
      let* vars' := scan_variables line vars in scan_lines rest vars'
  end.

(** The lines that the loop takes for INSERT statements of the table. *)
Definition is_insert (table_name line : string) : bool :=
  match insert_start table_name line with Some _ => true | None => false end.

Definition count_inserts (table_name : string) (lines : list string) : nat :=
  length (List.filter (is_insert table_name) lines).




(** What follows the new values in a rewritten line: with [--] in the line,
    all that comes after its first [);]; without, a line end. *)
Definition line_tail (line : string) : option string :=
  if contains "--" line
  then (fun i => drop (i + 2) line) <$> find ");" line
  else Some Common.newline.

Section Notions.
Context {F : Type} `{FloatRepr F}.

(** The line [new] is [line] with the values of [values] in the place of
    its old ones, written with the variables [vars]. *)
Definition line_rewritten (table_name : string) (description : list column)
    (vars : dict) (values : list (value F)) (line new : string) : Prop :=
  exists (e : nat) (texts : list string) (tail : string),
    insert_start table_name line = Some e
    /\ format_values table_name description vars 0 values = Ok texts
    /\ line_tail line = Some tail
    /\ new = take e line +:+ join "," texts +:+ ");" +:+ tail.

(** An exception [e] is raised while the rows are fetched, while the
    fixture is read, or while the lines are gone through. *)
Definition stage_raises (root_path : string) (w : world (F := F))
    (table_name : string) (e : exn) : Prop :=
  fetchall w table_name = Raise e
  \/ (exists t,
        fetchall w table_name = Ok t
        /\ read_fixture w (fixture_path root_path table_name) = Raise e)
  \/ (exists t sql_lines,
        fetchall w table_name = Ok t
        /\ read_fixture w (fixture_path root_path table_name) = Ok sql_lines
        /\ export_lines table_name (rows t) (description t) export_init
             sql_lines = Raise e).

(** The table has fewer rows than its fixture has INSERT lines. *)
Definition fewer_rows (root_path : string) (w : world (F := F))
    (table_name : string) : Prop :=
  exists t content,
    tables w !! table_name = Some t
    /\ files w !! fixture_path root_path table_name = Some content
    /\ (length (rows t) < count_inserts table_name (readlines content))%nat.


End Notions.

(** A database with the table [zones], and its fixture. *)
Definition zones_table (values : list (list (value Empty_set)))
  : table (F := Empty_set) :=
  {| rows := values;
     description := [ {| type_code := 3; scale := 0 |};
                      {| type_code := 253; scale := 0 |} ] |}.

Definition zones_fixture : string :=
  "-- zones" +:+ Common.newline
  +:+ "INSERT INTO `zones` VALUES (1,'old');  # first zone" +:+ Common.newline
  +:+ "INSERT INTO `zones` VALUES (2,'old'); -- second zone"
  +:+ Common.newline.

Definition zones_world (values : list (list (value Empty_set)))
  : world (F := Empty_set) :=
  {| tables := {[ "zones" := zones_table values ]};
     files := {[ "/srv/sql/zones.sql" := zones_fixture ]} |}.

(** A system in which [mysqldump] fails with return code 2. *)
Definition sample_system : Xitool.system := {|
  Xitool.root_path := "/srv";
  Xitool.configs := sample_configs;
  Xitool.version := "0a1b2c3d";
  Xitool.sql_database := "xidb";
  Xitool.files_seen := sample_tree;
  Xitool.schema := [];
  Xitool.now := "20240101-120000";
  Xitool.check_mysql_bin := true;
  Xitool.backup_process _ :=
    Ok {| returncode := 2;
          stderr := "mysqldump: Got error: 1045: Access denied" |};
  Xitool.drop_database := Ok tt;
  Xitool.mysqladmin := {| returncode := 0; stderr := EmptyString |};
  Xitool.select_created_database := Ok tt;
  Xitool.import_process _ :=
    {| returncode := 1; stderr := "ERROR 1064 (42000) at line 1" |};
  Xitool.write_configs := Ok tt;
  Xitool.select_database := Ok tt;
  Xitool.populate_migrations := Ok tt
|}.




(** The name of the file of a backup as it is described: the database, the
    time and a tag, which is [lite] for a backup of the listed tables,
    else the stored revision when there is one, else [full]. *)
Definition backup_name (database timestamp : string) (listed : bool)
    (db_ver : option string) : string :=
  database +:+ "-" +:+ timestamp +:+ "-"
  +:+ (if listed then "lite"
       else match db_ver with
            | Some revision =>
                if String.eqb revision EmptyString then "full" else revision
            | None => "full"
            end)
  +:+ ".sql".

(** A list of tables is supplied, and it is not empty. *)
Definition listed (tables : option (list string)) : bool :=
  match tables with
  | Some (_ :: _) => true
  | _ => false
  end.

(** The command line [--lite]. *)
Definition lite_args : Xitool.args := {|
  Xitool.backup := false;
  Xitool.lite := true;
  Xitool.command := None;
  Xitool.yes := false;
  Xitool.database_name := EmptyString;
  Xitool.import_file := EmptyString;
  Xitool.table_name := None;
  Xitool.all := false
|}.





(** Settings files as [populate_settings] finds them in [/srv]: the file
    [network.lua] is in both directories. *)
Definition sample_dirs : Common.dirs := {|
  Common.listdir p :=
    if String.eqb p "/srv/settings/default" then ["network.lua"; "main.lua"]
    else if String.eqb p "/srv/settings" then ["default"; "network.lua"]
    else [];
  Common.isfile p := negb (String.eqb p "/srv/settings/default");
  Common.readlines p :=
    if String.eqb p "/srv/settings/default/network.lua"
    then Ok [ "xi.settings.network =" +:+ Common.newline;
              "{" +:+ Common.newline;
              "    SQL_HOST     = " +:+ Common.quote +:+ "127.0.0.1"
              +:+ Common.quote +:+ ", -- host" +:+ Common.newline;
              "    SQL_PORT     = 3306," +:+ Common.newline;
              "    -- SQL_X     = 3306," +:+ Common.newline;
              "}" +:+ Common.newline ]
    else if String.eqb p "/srv/settings/network.lua"
    then Ok [ "    SQL_HOST     = " +:+ Common.quote +:+ "db.local"
              +:+ Common.quote +:+ "," +:+ Common.newline ]
    else Raise OSError
|}.

(** A change of the settings that makes some files present and gives some
    keys fixed values, whatever the settings were, and leaves the rest. *)
Definition overlay
    (f : gmap string (gmap string string) -> gmap string (gmap string string))
  : Prop :=
  exists (P : string -> Prop) (V : string -> string -> option string),
    forall (s : gmap string (gmap string string)) (file : string),
      (is_Some (f s !! file) <-> is_Some (s !! file) \/ P file)
      /\ forall key,
          Common.setting (f s) file key
          = match V file key with
            | Some v => Some v
            | None => Common.setting s file key
            end.

(** The constants that the lines declare, as pairs of a name and the text
    of a value, in the order of the lines. *)
Fixpoint declarations (lines : list string) : list (string * string) :=
  match lines with
  | [] => []
  | line :: rest =>
      (if startswith "SET @" (strip line)
       then match parse_set line with
            | Ok name_value => [name_value]
            | Raise _ => []
            end
       else [])
      ++ declarations rest
  end.

(** What a declaration does to [sql_variables], and the entry it makes. *)
Definition add_declaration (vars : dict) (name_value : string * string)
  : dict :=
  dict_set (snd name_value) (fst name_value) vars.

Definition swap (name_value : string * string) : string * string :=
  (snd name_value, fst name_value).

(** The constant has a bit in common with [z]. *)
Definition has_bit (z : Z) (name_value : string * string) : bool :=
  match int_of_str (snd name_value) with
  | Ok n => negb (Z.land z n =? 0)
  | Raise _ => false
  end.

(** A fixture of [pet_skills] that declares three flags, and one in which
    two names stand for one value. *)
Definition flag_lines : list string :=
  [ "SET @FLAG_A = 1;"; "SET @FLAG_B = 2; -- second"; "SET @FLAG_C = 4;" ].

Definition alias_lines : list string :=
  [ "SET @FLAG_A = 1;"; "SET @FLAG_B = 1;" ].

(** The value of an upper-case hexadecimal digit, and the byte that two
    of them write. *)
Definition unhex_digit (c : ascii) : N :=
  (if code c <? 58 then code c - 48 else code c - 55)%N.

Definition unhex (c1 c2 : ascii) : option Byte.byte :=
  Byte.of_N (16 * unhex_digit c1 + unhex_digit c2).

(** A column that is written without the names of variables and without a
    fixed number of decimals. *)
Definition plain_column (table_name : string) (description : list column)
    (i : nat) : Prop :=
  ~ (table_name = "mob_droplist" /\ i = 5%nat)
  /\ ~ (table_name = "pet_skills" /\ i = 9%nat)
  /\ forall col,
      nth_error description i = Some col ->
      ~ (type_code col = FIELD_TYPE_FLOAT /\ 0 < scale col).

(** *** Parsing the literals back

    The fixture that the export writes is read by the server when it is
    imported. What follows is the reading of one literal as the manual of
    the server describes it, for the forms that the export writes: [NULL],
    a hexadecimal literal, a string in single quotes, a decimal integer and
    a user variable. *)

(** What the column stores: bytes, text or integers. *)
Inductive column_kind : Type :=
| Binary
| Text
| Integer.

(** What a backslash and the character after it stand for in a quoted
    string. *)
Definition escaped (c : ascii) : string :=
  if Ascii.eqb c "0" then String "000" EmptyString
  else if Ascii.eqb c "b" then String "008" EmptyString
  else if Ascii.eqb c "n" then String "010" EmptyString
  else if Ascii.eqb c "r" then String "013" EmptyString
  else if Ascii.eqb c "t" then String "009" EmptyString
  else if Ascii.eqb c "Z" then String "026" EmptyString
  else if Ascii.eqb c "%" then "\%"
  else if Ascii.eqb c "_" then "\_"
  else String c EmptyString.

(** The string that a quoted literal stands for, from the text after the
    opening quote: two quotes stand for one, a backslash escapes the next
    character, and the closing quote ends the text. *)
Fixpoint parse_quoted (s : string) : option string :=
  match s with
  | EmptyString => None
  | String c rest =>
      if Ascii.eqb c "'" then
        match rest with
        | EmptyString => Some EmptyString
        | String c' rest' =>
            if Ascii.eqb c' "'" then String "'" <$> parse_quoted rest'
            else None
        end
      else if Ascii.eqb c "\" then
        match rest with
        | EmptyString => None
        | String c' rest' =>
            (fun r => escaped c' +:+ r) <$> parse_quoted rest'
        end
      else String c <$> parse_quoted rest
  end.

(** The value of a hexadecimal digit, and the bytes of an even number of
    digits. *)
Definition hex_value (c : ascii) : option N :=
  let n := code c in
  if ((48 <=? n) && (n <=? 57))%N then Some (n - 48)%N
  else if ((65 <=? n) && (n <=? 70))%N then Some (n - 55)%N
  else if ((97 <=? n) && (n <=? 102))%N then Some (n - 87)%N
  else None.

Definition parse_byte (c1 c2 : ascii) : option Byte.byte :=
  h ← hex_value c1; l ← hex_value c2; Byte.of_N (16 * h + l).

Fixpoint parse_hex (digits : string) : option (list Byte.byte) :=
  match digits with
  | EmptyString => Some []
  | String c1 (String c2 rest) =>
      x ← parse_byte c1 c2; (fun b => x :: b) <$> parse_hex rest
  | String _ EmptyString => None
  end.

(** The bytes of the digits after [0x]: there is a digit, and an odd
    number of digits is read with a zero before them. *)
Definition parse_hex_literal (digits : string) : option (list Byte.byte) :=
  if String.eqb digits EmptyString then None
  else if Nat.even (String.length digits) then parse_hex digits
  else parse_hex (String "0" digits).

(** A decimal integer, with a minus sign or without a sign. *)
Definition parse_integer (text : string) : option Z :=
  Z.of_int <$> NilZero.int_of_string text.

(** The value text that a user variable has after the assignments [env],
    made in that order: that of the last assignment of the name. The
    assignments of a fixture are taken to be those that the export reads
    from its lines, name and value text. *)
Definition assigned (env : list (string * string)) (name : string)
  : option string :=
  snd <$> List.find (fun d => String.eqb (fst d) name) (rev env).

(** [s.encode('latin_1')] for code points below 256. *)
Definition encode_latin_1 (s : string) : list Byte.byte :=
  String.list_byte_of_string s.

Section Parsing.
Context {F : Type}.

(** The value that a column of the kind stores for the literal [text],
    when the user variables have been assigned by [env]. *)
Definition parse_literal (kind : column_kind) (env : list (string * string))
    (text : string) : option (value F) :=
  if String.eqb text "NULL" then Some VNone
  else
    match kind with
    | Binary =>
        if startswith "0x" text
        then VBytes <$> parse_hex_literal (drop 2 text)
        else if startswith "'" text
        then (fun s => VBytes (encode_latin_1 s))
               <$> parse_quoted (drop 1 text)
        else None
    | Text =>
        if startswith "'" text then VStr <$> parse_quoted (drop 1 text)
        else None
    | Integer =>
        if startswith "@" text
        then value_text ← assigned env text; VInt <$> parse_integer value_text
        else VInt <$> parse_integer text
    end.



End Parsing.



(** A database with the table [zones], whose fixture has comments only,
    a carriage return and a line feed at the end of the first line and a
    carriage return at the end of the second. *)
Definition crlf_world : world (F := Empty_set) :=
  {| tables := {[ "zones" := zones_table [[VInt 7; VStr "new"]] ]};
     files :=
       {[ "/srv/sql/zones.sql" :=
            "-- zones" +:+ String "013" Common.newline
            +:+ "-- no rows yet" +:+ String "013" EmptyString ]} |}.

(** A database with the table [zones], whose fixture declares a variable
    without a value. *)
Definition broken_world : world (F := Empty_set) :=
  {| tables := {[ "zones" := zones_table [[VInt 7; VStr "new"]] ]};
     files :=
       {[ "/srv/sql/zones.sql" :=
            "SET @ZONE_NONE;" +:+ Common.newline
            +:+ "INSERT INTO `zones` VALUES (1,'old');" +:+ Common.newline ]}
  |}.

(** A checkout whose stored [db_ver] names no commit, so that the
    comparison of revisions raises, and whose [sql] directory has no
    [triggers.sql]. *)
Definition bare_tree : tree := {|
  path_exists _ := true;
  walk_filenames p :=
    if String.eqb p "/srv/sql" then Some ["zones.sql"; "abilities.sql"]
    else None;
  diff_b_paths _ _ _ := Raise ValueError;
  text_lines _ := Ok ["extra.sql"];
  is_dir _ := false;
  glob_sql _ := [];
  normpath p := p
|}.

Definition stale_configs : Common.configs :=
  {| Common.db_ver := Some "deadbeef"; Common.mysql_bin := "/usr/bin" |}.

Definition bare_system : Xitool.system := {|
  Xitool.root_path := "/srv";
  Xitool.configs := stale_configs;
  Xitool.version := "0a1b2c3d";
  Xitool.sql_database := "xidb";
  Xitool.files_seen := bare_tree;
  Xitool.schema := [];
  Xitool.now := "20240101-120000";
  Xitool.check_mysql_bin := true;
  Xitool.backup_process _ :=
    Ok {| returncode := 0; stderr := EmptyString |};
  Xitool.drop_database := Ok tt;
  Xitool.mysqladmin := {| returncode := 0; stderr := EmptyString |};
  Xitool.select_created_database := Ok tt;
  Xitool.import_process _ := {| returncode := 0; stderr := EmptyString |};
  Xitool.write_configs := Ok tt;
  Xitool.select_database := Ok tt;
  Xitool.populate_migrations := Ok tt
|}.

Definition export_all_args : Xitool.args := {|
  Xitool.backup := false;
  Xitool.lite := false;
  Xitool.command := Some "export";
  Xitool.yes := false;
  Xitool.database_name := EmptyString;
  Xitool.import_file := EmptyString;
  Xitool.table_name := None;
  Xitool.all := true
|}.

(** A checkout with the fixture of a protected table, and a database that
    has the table. *)
Definition guarded_tree : tree := {|
  path_exists _ := true;
  walk_filenames p :=
    if String.eqb p "/srv/sql"
    then Some ["zones.sql"; "triggers.sql"; "chars.sql"]
    else None;
  diff_b_paths _ _ _ := Ok [];
  text_lines _ := Ok [];
  is_dir _ := false;
  glob_sql _ := [];
  normpath p := p
|}.

Definition guarded_system : Xitool.system := {|
  Xitool.root_path := "/srv";
  Xitool.configs := sample_configs;
  Xitool.version := "0a1b2c3d";
  Xitool.sql_database := "xidb";
  Xitool.files_seen := guarded_tree;
  Xitool.schema := [];
  Xitool.now := "20240101-120000";
  Xitool.check_mysql_bin := true;
  Xitool.backup_process _ :=
    Ok {| returncode := 0; stderr := EmptyString |};
  Xitool.drop_database := Ok tt;
  Xitool.mysqladmin := {| returncode := 0; stderr := EmptyString |};
  Xitool.select_created_database := Ok tt;
  Xitool.import_process _ := {| returncode := 0; stderr := EmptyString |};
  Xitool.write_configs := Ok tt;
  Xitool.select_database := Ok tt;
  Xitool.populate_migrations := Ok tt
|}.

Definition chars_fixture : string :=
  "INSERT INTO `chars` VALUES (1,'old');" +:+ Common.newline.

Definition guarded_world : world (F := Empty_set) :=
  {| tables :=
       {[ "zones" := zones_table [[VInt 1; VStr "new"]; [VInt 2; VStr "new"]];
          "chars" := zones_table [[VInt 1; VStr "new"]] ]};
     files :=
       {[ "/srv/sql/zones.sql" := zones_fixture;
          "/srv/sql/chars.sql" := chars_fixture ]} |}.


(** A checkout in which two fixtures differ from the revision of
    [db_ver], one of them the fixture of a protected table. *)
Definition changed_tree : tree := {|
  path_exists _ := true;
  walk_filenames _ := None;
  diff_b_paths _ _ _ := Ok [Some "sql/zones.sql"; Some "sql/chars.sql"];
  text_lines _ := Ok [];
  is_dir _ := false;
  glob_sql _ := [];
  normpath p := p
|}.

(** * Properties *)

(** ** Strings *)

Section StringFacts.

Lemma app_cons (x : ascii) (a b : string) :
  String x a +:+ b = String x (a +:+ b).
Proof. reflexivity. Qed.

Lemma app_nil_l (s : string) : EmptyString +:+ s = s.
Proof. reflexivity. Qed.

Lemma app_nil_r (s : string) : s +:+ EmptyString = s.
Proof.
  induction s as [|c s IH]; [reflexivity|]. by rewrite app_cons, IH.
Qed.

Lemma app_assoc (a b c : string) : (a +:+ b) +:+ c = a +:+ (b +:+ c).
Proof.
  induction a as [|x a IH]; [reflexivity|]. by rewrite !app_cons, IH.
Qed.

Lemma app_length (a b : string) :
  String.length (a +:+ b) = (String.length a + String.length b)%nat.
Proof.
  induction a as [|x a IH]; [reflexivity|].
  rewrite app_cons. cbn [String.length]. by rewrite IH.
Qed.

Lemma app_inv_head (a b c : string) : a +:+ b = a +:+ c -> b = c.
Proof.
  induction a as [|x a IH]; [done|]. rewrite !app_cons. intros [= ?]. auto.
Qed.

Lemma app_inv_tail (a b c : string) : a +:+ c = b +:+ c -> a = b.
Proof.
  revert b. induction a as [|x a IH]; intros [|y b] E.
  - reflexivity.
  - apply (f_equal String.length) in E.
    rewrite !app_length in E. cbn in E. lia.
  - apply (f_equal String.length) in E.
    rewrite !app_length in E. cbn in E. lia.
  - rewrite !app_cons in E. injection E as -> E. f_equal. by apply IH.
Qed.

Lemma take_drop (n : nat) (s : string) : take n s +:+ drop n s = s.
Proof.
  revert s. induction n as [|n IH]; intros [|c s]; try reflexivity.
  cbn [take drop]. by rewrite app_cons, IH.
Qed.

Lemma take_app_length (a b : string) : take (String.length a) (a +:+ b) = a.
Proof.
  induction a as [|x a IH]; [by destruct b|].
  rewrite app_cons. cbn [String.length take]. by rewrite IH.
Qed.

Lemma drop_app_length (a b : string) : drop (String.length a) (a +:+ b) = b.
Proof.
  induction a as [|x a IH]; [by destruct b|].
  rewrite app_cons. cbn [String.length drop]. done.
Qed.

Lemma drop_drop (n m : nat) (s : string) : drop m (drop n s) = drop (n + m) s.
Proof.
  revert s. induction n as [|n IH]; intros s; [reflexivity|].
  destruct s as [|c s]; cbn; [by destruct m|]. apply IH.
Qed.

Lemma prefix_take (p s : string) :
  String.prefix p s = true -> take (String.length p) s = p.
Proof.
  revert s. induction p as [|x p IH]; intros [|c s]; cbn; try done.
  destruct (ascii_dec x c) as [->|]; [|done]. intros E. by rewrite IH.
Qed.

Lemma prefix_app (p s : string) : String.prefix p (p +:+ s) = true.
Proof.
  induction p as [|x p IH]; [by destruct s|].
  rewrite app_cons. cbn. destruct (ascii_dec x x); [done|congruence].
Qed.

Lemma replace_same (c : ascii) (s : string) :
  replace c (String c EmptyString) s = s.
Proof.
  induction s as [|d s IH]; [done|]. cbn [replace]. rewrite IH.
  by destruct (Ascii.eqb_spec d c) as [->|].
Qed.

Lemma stored_text_posix (text : string) : stored_text text = text.
Proof. apply replace_same. Qed.

End StringFacts.


(** ** Binary values *)

Section BinaryValues.
Context {F : Type} `{FloatRepr F}.

Lemma is_text_Forall (b : list Byte.byte) :
  is_text b = true <-> Forall printable b.
Proof.
  induction b as [|j b IH]; cbn [is_text].
  - split; [constructor|done].
  - rewrite Forall_cons. unfold printable at 1.
    destruct (N.ltb_spec (Byte.to_N j) 32), (N.ltb_spec 126 (Byte.to_N j));
      cbn [orb]; rewrite ?IH; split; intros; try done; try tauto; lia.
Qed.

Lemma is_text_Exists (b : list Byte.byte) :
  is_text b = false <-> Exists unprintable b.
Proof.
  induction b as [|j b IH]; cbn [is_text].
  - split; [done|]. intros E. inversion E.
  - rewrite Exists_cons. unfold unprintable at 1.
    destruct (N.ltb_spec (Byte.to_N j) 32), (N.ltb_spec 126 (Byte.to_N j));
      cbn [orb]; rewrite ?IH; split; intros; try done; try tauto.
    destruct H2 as [[?|?]|?]; [lia|lia|done].
Qed.

Lemma quoted_not_hex (s : string) (b : list Byte.byte) :
  quoted s <> hex_literal b.
Proof. unfold quoted, hex_literal. rewrite !app_cons. discriminate. Qed.

Lemma format_bytes_name_field (description : list column) (vars : dict)
    (b : list Byte.byte) :
  b <> [] ->
  format_value "npc_list" description vars 1 (VBytes b)
  = Ok (if is_text b then quoted (decode_latin_1 b) else hex_literal b).
Proof.
  intros Hb. unfold format_value. destruct b as [|j b]; [done|].
  cbn [length Nat.eqb]. cbn [String.eqb Ascii.eqb Bool.eqb andb Nat.eqb].
  by destruct (is_text (j :: b)).
Qed.

Lemma format_bytes_elsewhere (description : list column) (vars : dict)
    (table_name : string) (i : nat) (b : list Byte.byte) :
  b <> [] -> ~ (table_name = "npc_list" /\ i = 1%nat) ->
  format_value table_name description vars i (VBytes b) = Ok (hex_literal b).
Proof.
  intros Hb Hn. unfold format_value. destruct b as [|j b]; [done|].
  cbn [length Nat.eqb].
  destruct (String.eqb_spec table_name "npc_list") as [->|];
    destruct (Nat.eqb_spec i 1) as [->|]; cbn [andb]; try done.
  exfalso. by apply Hn.
Qed.

(** C4. A [bytes] value that is not empty, in the name field of [npc_list]
    (column 1), is written in the [0x] upper-case hexadecimal form exactly
    when one of its bytes is outside 32..126, and as the quoted decoded text
    when all its bytes are inside; in every other position it is written in
    the hexadecimal form. *)
Theorem binary_value_hex_iff_unprintable (description : list column)
    (vars : dict) (b : list Byte.byte) :
  b <> [] ->
  (format_value "npc_list" description vars 1 (VBytes b)
   = Ok ("0x" +:+ upper (hex b))
   <-> Exists unprintable b)
  /\ (Forall printable b ->
      format_value "npc_list" description vars 1 (VBytes b)
      = Ok ("'" +:+ decode_latin_1 b +:+ "'"))
  /\ (forall (table_name : string) (i : nat),
        ~ (table_name = "npc_list" /\ i = 1%nat) ->
        format_value table_name description vars i (VBytes b)
        = Ok ("0x" +:+ upper (hex b))).
Proof.
  intros Hb. rewrite (format_bytes_name_field _ _ _ Hb).
  split; [|split].
  - rewrite <- is_text_Exists. destruct (is_text b) eqn:E.
    + split; [|done]. intros E'. exfalso.
      apply (quoted_not_hex (decode_latin_1 b) b). by injection E'.
    + done.
  - intros Hp. apply is_text_Forall in Hp. by rewrite Hp.
  - intros table_name i Hn. by apply format_bytes_elsewhere.
Qed.

End BinaryValues.

Lemma binary_value_hex_iff_unprintable_witness :
  [Byte.x4e; Byte.xff] <> []
  /\ (format_value (H := no_float) "npc_list" [] [] 1
        (VBytes [Byte.x4e; Byte.xff])
      = Ok "0x4EFF"
      <-> Exists unprintable [Byte.x4e; Byte.xff]).
Proof.
  split; [done|].
  apply (binary_value_hex_iff_unprintable (H := no_float) [] []
           [Byte.x4e; Byte.xff]).
  done.
Defined.

(** ** The name of a backup *)

Lemma backup_step_tables (sys : Xitool.system) (a : Xitool.args) :
  Xitool.lite a = true ->
  Xitool.backup_step sys a
  = (let* r :=
       Xitool.backup_process sys
         (backup_path (Xitool.files_seen sys)
            (path_join (path_join (Xitool.root_path sys) "sql") "backups")
            (Xitool.sql_database sys) (Xitool.now sys)
            (Some protected_tables)
            (Common.db_ver (Xitool.configs sys))) in
     Ok (returncode r)).
Proof.
  intros Hl. unfold Xitool.backup_step. rewrite Hl, orb_true_r. done.
Qed.

(** C9. The file that a backup writes is, in the directory given, the file
    named after the database, the time and a tag: [lite] when a list of
    tables is given, else the stored [db_ver] when there is one, else
    [full]. The backup step of [main] has [mysqldump] write that file in
    [sql/backups], with the tag [lite] for the [--lite] flag. *)
Theorem backup_file_name_tag (t : tree) (out_dir database timestamp : string)
    (tables : option (list string)) (db_ver : option string)
    (sys : Xitool.system) (a : Xitool.args) :
  backup_path t out_dir database timestamp tables db_ver
  = replace "\" "/"
      (normpath t
         (path_join out_dir
            (backup_name database timestamp (listed tables) db_ver)))
  /\ (Xitool.backup a || Xitool.lite a = true ->
      Xitool.backup_step sys a
      = (let* r :=
           Xitool.backup_process sys
             (replace "\" "/"
                (normpath (Xitool.files_seen sys)
                   (path_join
                      (path_join (path_join (Xitool.root_path sys) "sql")
                         "backups")
                      (backup_name (Xitool.sql_database sys) (Xitool.now sys)
                         (Xitool.lite a)
                         (Common.db_ver (Xitool.configs sys)))))) in
         Ok (returncode r))).
Proof.
  assert (forall tables',
             backup_file_name database timestamp tables' db_ver
             = backup_name database timestamp (listed tables') db_ver)
    as Hname.
  { intros tables'. unfold backup_file_name, backup_tag, backup_name, truthy.
    destruct tables' as [[|x l]|], db_ver as [v|]; cbn [listed default];
      try done; by destruct (String.eqb v EmptyString). }
  split.
  - unfold backup_path. by rewrite Hname.
  - intros Hb. unfold Xitool.backup_step, backup_path. rewrite Hb.
    do 5 f_equal. unfold backup_file_name, backup_tag, backup_name, truthy.
    destruct (Xitool.lite a); [done|].
    destruct (Common.db_ver (Xitool.configs sys)) as [v|]; [|done].
    cbn [default]. by destruct (String.eqb v EmptyString).
Qed.

Lemma backup_file_name_tag_witness :
  backup_path sample_tree "/srv/sql/backups" "xidb" "20240101-120000"
    (Some protected_tables) (Some "0a1b2c3d")
  = "/srv/sql/backups/xidb-20240101-120000-lite.sql"
  /\ Xitool.backup_step sample_system lite_args
     = (let* r :=
          Xitool.backup_process sample_system
            "/srv/sql/backups/xidb-20240101-120000-lite.sql" in
        Ok (returncode r)).
Proof.
  destruct (backup_file_name_tag sample_tree "/srv/sql/backups" "xidb"
              "20240101-120000" (Some protected_tables) (Some "0a1b2c3d")
              sample_system lite_args) as [Hpath Hstep].
  split.
  - rewrite Hpath. reflexivity.
  - rewrite (Hstep eq_refl). reflexivity.
Defined.

(** ** The tables that are missing *)

Lemma fold_left_snoc {A : Type} (l acc : list A) :
  fold_left (fun missing value => missing ++ [value]) l acc = acc ++ l.
Proof.
  revert acc. induction l as [|x l IH]; intros acc; cbn.
  - by rewrite List.app_nil_r.
  - by rewrite IH, <- List.app_assoc.
Qed.

Lemma check_missing_rows (schema table_list : list string) :
  table_list <> [] ->
  check_missing schema table_list
  = Ok (map (fun name => OTuple [name])
          (List.filter (fun name => in_list name table_list) schema)).
Proof.
  intros Hl. unfold check_missing. destruct table_list; [done|].
  by rewrite fold_left_snoc.
Qed.

Lemma str_not_in_rows (value : string) (names : list string) :
  existsb (obj_eqb (OStr value)) (map (fun name => OTuple [name]) names)
  = false.
Proof. induction names as [|n names IH]; [done|]. cbn. exact IH. Qed.

Lemma filter_true {A : Type} (f : A -> bool) (l : list A) :
  (forall x, f x = true) -> List.filter f l = l.
Proof.
  intros Hf. induction l as [|x l IH]; [done|]. cbn. by rewrite Hf, IH.
Qed.

Lemma update_protected_files (cfg : Common.configs) (version : string)
    (t : tree) (schema : list string) (root_path : string) :
  update cfg version t schema root_path
  = (let* files := fetch_files cfg version t root_path in
     Ok (map (protected_file root_path) protected_tables ++ files)).
Proof.
  unfold update. rewrite check_missing_rows by done. cbn [bind].
  rewrite filter_true; [done|].
  intros x. by rewrite str_not_in_rows.
Qed.

(** C3. With [accounts] in the database and [chars] not, [check_missing]
    returns the row of [accounts], the table that is there, where its
    documentation promises [chars], the table that is missing. *)
Theorem check_missing_returns_present_tables :
  check_missing ["accounts"] ["accounts"; "chars"] = Ok [OTuple ["accounts"]].
Proof. reflexivity. Qed.

(** ** The order of the files to import *)

Lemma list_index_nth (x : string) (l : list string) (i : nat) :
  list_index x l = Some i -> nth_error l i = Some x.
Proof.
  revert i. induction l as [|y l IH]; intros i; cbn; [done|].
  destruct (String.eqb_spec y x) as [->|].
  - by intros [= <-].
  - destruct (list_index x l) as [j|]; cbn; [|done].
    intros [= <-]. cbn. by apply IH.
Qed.

Lemma list_index_In (x : string) (l : list string) :
  In x l -> exists i, list_index x l = Some i.
Proof.
  induction l as [|y l IH]; cbn; [done|].
  destruct (String.eqb_spec y x) as [->|Hne]; [by eexists|].
  intros [?|Hin]; [done|]. destruct (IH Hin) as [i ->]. by eexists.
Qed.

Lemma pop_keeps_others (i : nat) (l : list string) (x f : string) :
  nth_error l i = Some x -> In f l -> f <> x -> In f (pop i l).
Proof.
  revert i. induction l as [|y l IH]; intros i; [done|].
  destruct i as [|i]; cbn.
  - intros [= ->] [?|?] ?; [congruence|done].
  - intros Hn [->|Hin] Hne; [by left|]. right. by apply (IH i).
Qed.

Lemma triggers_last_spec (root_path : string) (l : list string) :
  In (triggers_file root_path) l ->
  exists before,
    triggers_last root_path l = before ++ [triggers_file root_path]
    /\ forall f, In f l -> f <> triggers_file root_path -> In f before.
Proof.
  intros Hin. unfold triggers_last.
  destruct (list_index_In _ _ Hin) as [i Hi]. rewrite Hi.
  rewrite (list_index_nth _ _ _ Hi).
  exists (pop i l). split; [done|].
  intros f Hf Hne. eapply pop_keeps_others; eauto using list_index_nth.
Qed.

Lemma sorted_In (f : string) (l : list string) : In f (sorted l) <-> In f l.
Proof.
  unfold sorted. split; apply Permutation_in.
  - apply merge_sort_Permutation.
  - symmetry. apply merge_sort_Permutation.
Qed.

Lemma fetch_files_triggers (cfg : Common.configs) (version : string)
    (t : tree) (root_path : string) (files : list string) :
  fetch_files cfg version t root_path = Ok files ->
  In (triggers_file root_path) (changed_files cfg version t root_path) ->
  triggers_then_modules t root_path
    (changed_files cfg version t root_path) files.
Proof.
  unfold fetch_files, sql_files. intros Hf Hin.
  destruct (text_lines t (init_txt root_path)) as [lines|e] eqn:El; [|done].
  cbn in Hf. injection Hf as <-.
  destruct (triggers_last_spec root_path
              (sorted (changed_files cfg version t root_path)))
    as (before & -> & Hb); [by apply sorted_In|].
  exists before, lines. split; [done|]. split.
  - by rewrite <- List.app_assoc.
  - intros f Hf Hne. apply Hb; [by apply sorted_In|done].
Qed.

Lemma triggers_then_modules_prefix (t : tree) (root_path : string)
    (prefix selected files : list string) :
  triggers_then_modules t root_path selected files ->
  triggers_then_modules t root_path (prefix ++ selected) (prefix ++ files).
Proof.
  intros (before & lines & Hl & -> & Hb).
  exists (prefix ++ before), lines. split; [done|]. split.
  - by rewrite <- List.app_assoc.
  - intros f Hf Hne. apply in_app_iff. apply in_app_iff in Hf as [?|?]; auto.
Qed.

Lemma update_triggers (cfg : Common.configs) (version : string) (t : tree)
    (schema : list string) (root_path : string) (l : list string) :
  update cfg version t schema root_path = Ok l ->
  In (triggers_file root_path) (changed_files cfg version t root_path) ->
  triggers_then_modules t root_path
    (map (protected_file root_path) protected_tables
     ++ changed_files cfg version t root_path) l.
Proof.
  rewrite update_protected_files. intros Hl Hin.
  destruct (fetch_files cfg version t root_path) as [files|] eqn:Ef;
    cbn [bind] in Hl; [|done].
  assert (map (protected_file root_path) protected_tables ++ files = l)
    as <- by congruence.
  apply triggers_then_modules_prefix. by apply fetch_files_triggers.
Qed.

Lemma create_triggers (cfg : Common.configs) (version : string) (t : tree)
    (root_path : string) (l : list string) :
  let cfg' :=
    {| Common.db_ver := None; Common.mysql_bin := Common.mysql_bin cfg |} in
  create_import_files cfg version t root_path = Ok l ->
  In (triggers_file root_path) (changed_files cfg' version t root_path) ->
  triggers_then_modules t root_path
    (map (protected_file root_path) protected_tables
     ++ changed_files cfg' version t root_path) l.
Proof.
  intros cfg'. unfold create_import_files. fold cfg'. intros Hl Hin.
  destruct (fetch_files cfg' version t root_path) as [files|] eqn:Ef;
    cbn [bind] in Hl; [|done].
  assert (map (protected_file root_path) protected_tables ++ files = l)
    as <- by congruence.
  apply triggers_then_modules_prefix. by apply fetch_files_triggers.
Qed.

(** C2, as the code has it. In the list that [update] computes, and in the
    one that [create] computes for [setup], the triggers fixture, when it is
    among the fixtures selected from the [sql] directory, comes after the
    files of the protected tables and after every other selected fixture;
    behind it there are only the files of the modules that
    [modules/init.txt] names. *)
Theorem triggers_after_sql_fixtures (setup : bool) (cfg : Common.configs)
    (version : string) (t : tree) (schema : list string)
    (root_path : string) (l : list string) :
  let cfg' :=
    if setup
    then {| Common.db_ver := None; Common.mysql_bin := Common.mysql_bin cfg |}
    else cfg in
  (if setup then create_import_files cfg version t root_path
   else update cfg version t schema root_path) = Ok l ->
  In (triggers_file root_path) (changed_files cfg' version t root_path) ->
  triggers_then_modules t root_path
    (map (protected_file root_path) protected_tables
     ++ changed_files cfg' version t root_path) l.
Proof.
  destruct setup; intros cfg'.
  - apply create_triggers.
  - apply update_triggers.
Qed.

Lemma triggers_after_sql_fixtures_witness :
  triggers_then_modules sample_tree "/srv"
    (map (protected_file "/srv") protected_tables
     ++ ["/srv/sql/abilities.sql"; "/srv/sql/triggers.sql";
         "/srv/sql/zones.sql"])
    (map (protected_file "/srv") protected_tables
     ++ ["/srv/sql/abilities.sql"; "/srv/sql/zones.sql";
         "/srv/sql/triggers.sql"; "/srv/modules/extra.sql"]).
Proof.
  apply (triggers_after_sql_fixtures false sample_configs "0a1b2c3d"
           sample_tree [] "/srv").
  - vm_compute. reflexivity.
  - vm_compute. tauto.
Defined.

(** C2, as it is stated, fails: with a module file named in
    [modules/init.txt], the list of [update] has that file behind the
    triggers fixture. *)
Lemma triggers_before_module_file :
  exists before,
    update sample_configs "0a1b2c3d" sample_tree [] "/srv"
    = Ok (before ++ ["/srv/sql/triggers.sql"; "/srv/modules/extra.sql"])
    /\ triggers_file "/srv" = "/srv/sql/triggers.sql"
    /\ "/srv/modules/extra.sql" <> triggers_file "/srv".
Proof.
  exists (map (protected_file "/srv") protected_tables
          ++ ["/srv/sql/abilities.sql"; "/srv/sql/zones.sql"]).
  split; [|split]; [vm_compute; reflexivity|vm_compute; reflexivity|].
  vm_compute. discriminate.
Qed.

(** ** The loop over the lines of a fixture *)

Lemma split_head_prefix (sep s : string) :
  exists rest, s = nth 0 (split sep s) EmptyString +:+ rest.
Proof.
  unfold split. induction s as [|c s IH]; cbn [split_go].
  - by exists EmptyString.
  - destruct (String.prefix sep (String c s)).
    + by exists (String c s).
    + destruct IH as [rest IH].
      destruct (split_go sep 0 s) as [|h t]; cbn [nth] in *.
      * exists s. by rewrite app_cons.
      * exists rest. rewrite app_cons. by f_equal.
Qed.

Lemma before_comment_rest (sep s : string) :
  nth 0 (split sep s) EmptyString
  +:+ drop (String.length (nth 0 (split sep s) EmptyString)) s = s.
Proof.
  destruct (split_head_prefix sep s) as [rest E].
  remember (nth 0 (split sep s) EmptyString) as h eqn:Eh. clear Eh.
  subst s. by rewrite drop_app_length.
Qed.

Lemma append_comment_tail (line updated_line new : string) :
  append_comment line updated_line = Ok new
  <-> exists tail, line_tail line = Some tail /\ new = updated_line +:+ tail.
Proof.
  unfold append_comment, line_tail, index.
  destruct (contains "--" line).
  - destruct (find ");" line) as [i|]; cbn [bind fmap option_fmap option_map].
    + rewrite <- (drop_drop (i + 2) (String.length _) line).
      rewrite before_comment_rest.
      split.
      * intros [= <-]. by eexists.
      * intros (tail & [= <-] & ->). done.
    + split; [done|]. by intros (tail & ? & _).
  - split.
    + intros [= <-]. by eexists.
    + intros (tail & [= <-] & ->). done.
Qed.

Section ExportLoop.
Context {F : Type} `{FloatRepr F}.

Lemma export_line_ok (table_name : string) (rows : list (list (value F)))
    (description : list column) (st st' : export_state) (line : string) :
  export_line table_name rows description st line = Ok st' ->
  scan_variables line (sql_variables st) = Ok (sql_variables st')
  /\ if is_insert table_name line
     then exists values new,
         nth_error rows (row_index st) = Some values
         /\ line_rewritten table_name description (sql_variables st') values
              line new
         /\ updated_lines st' = updated_lines st ++ [new]
         /\ row_index st' = S (row_index st)
     else updated_lines st' = updated_lines st ++ [line]
          /\ row_index st' = row_index st.
Proof.
  unfold export_line, is_insert, line_rewritten, getitem.
  destruct (scan_variables line (sql_variables st)) as [vars|]; [|done].
  cbn [bind].
  destruct (insert_start table_name line) as [e|].
  - destruct (nth_error rows (row_index st)) as [values|]; [|done].
    cbn [bind].
    destruct (format_values table_name description vars 0 values)
      as [texts|] eqn:Ef; [|done].
    cbn [bind].
    destruct (append_comment line _) as [new|] eqn:Ea; [|done].
    cbn [bind]. intros [= <-]. cbn. split; [done|].
    apply append_comment_tail in Ea as (tail & Ht & ->).
    exists values. eexists. split; [done|]. split; [|done].
    exists e, texts, tail. by rewrite !app_assoc.
  - intros [= <-]. done.
Qed.

Lemma count_inserts_cons (table_name line : string) (lines : list string) :
  count_inserts table_name (line :: lines)
  = ((if is_insert table_name line then 1 else 0)
     + count_inserts table_name lines)%nat.
Proof.
  unfold count_inserts. cbn. by destruct (is_insert table_name line).
Qed.

(** What a run of the loop that ends without an exception has done. *)
Lemma export_lines_ok (table_name : string) (rows : list (list (value F)))
    (description : list column) (sql_lines : list string)
    (st st' : export_state) :
  export_lines table_name rows description st sql_lines = Ok st' ->
  exists out,
    updated_lines st' = updated_lines st ++ out
    /\ length out = length sql_lines
    /\ row_index st' = (row_index st + count_inserts table_name sql_lines)%nat
    /\ (count_inserts table_name sql_lines = 0%nat
        \/ (row_index st' <= length rows)%nat)
    /\ forall k line,
        nth_error sql_lines k = Some line ->
        exists new,
          nth_error out k = Some new
          /\ if is_insert table_name line
             then exists vars values,
                 scan_lines (firstn (S k) sql_lines) (sql_variables st)
                 = Ok vars
                 /\ nth_error rows
                      (row_index st
                       + count_inserts table_name (firstn k sql_lines))
                    = Some values
                 /\ line_rewritten table_name description vars values
                      line new
             else new = line.
Proof.
  revert st. induction sql_lines as [|l sql_lines IH]; intros st;
    cbn [export_lines].
  - intros [= <-]. exists []. rewrite List.app_nil_r.
    split; [done|]. split; [done|]. split; [cbn; lia|].
    split; [by left|]. by intros [|?] ?.
  - destruct (export_line table_name rows description st l) as [st1|] eqn:E1;
      [|done].
    cbn [bind]. intros E2.
    destruct (export_line_ok _ _ _ _ _ _ E1) as [Hv Hl].
    destruct (IH _ E2) as (out & Hout & Hlen & Hrow & Hbound & Hk).
    rewrite count_inserts_cons.
    destruct (is_insert table_name l) eqn:Ei.
    + destruct Hl as (values & new & Hrows & Hnew & Hup & Hri).
      exists (new :: out). rewrite Hout, Hup, <- List.app_assoc.
      split; [done|]. split; [cbn; by rewrite Hlen|].
      split; [lia|]. split.
      { right. destruct Hbound as [Hz|?]; [|done].
        rewrite Hrow, Hz, Hri.
        assert (row_index st < length rows)%nat
          by (apply nth_error_Some; congruence).
        lia. }
      intros [|k] line; cbn [nth_error].
      * intros [= <-]. exists new. split; [done|]. rewrite Ei.
        exists (sql_variables st1), values. cbn [firstn scan_lines].
        rewrite Hv. cbn [bind].
        split; [done|]. split; [|done].
        by rewrite Nat.add_0_r.
      * intros Hline. destruct (Hk k line Hline) as (new' & Hn & Hc).
        exists new'. split; [done|].
        destruct (is_insert table_name line); [|done].
        destruct Hc as (vars & values' & Hs & Hr & Hw).
        exists vars, values'. cbn [firstn scan_lines]. rewrite Hv.
        cbn [bind]. split; [done|]. split; [|done].
        rewrite count_inserts_cons, Ei. rewrite <- Hr, Hri. f_equal. lia.
    + destruct Hl as [Hup Hri].
      exists (l :: out). rewrite Hout, Hup, <- List.app_assoc.
      split; [done|]. split; [cbn; by rewrite Hlen|].
      split; [lia|]. split.
      { destruct Hbound as [Hz|?]; [left; lia|by right]. }
      intros [|k] line; cbn [nth_error].
      * intros [= <-]. exists l. by rewrite Ei.
      * intros Hline. destruct (Hk k line Hline) as (new' & Hn & Hc).
        exists new'. split; [done|].
        destruct (is_insert table_name line); [|done].
        destruct Hc as (vars & values' & Hs & Hr & Hw).
        exists vars, values'. cbn [firstn scan_lines]. rewrite Hv.
        cbn [bind]. split; [done|]. split; [|done].
        rewrite count_inserts_cons, Ei. rewrite <- Hr, Hri. f_equal.
Qed.

End ExportLoop.

(** ** [export_table] *)

Lemma rstrip_prefix (s : string) : exists w, s = rstrip s +:+ w.
Proof.
  induction s as [|c s [w IH]]; [by exists EmptyString|].
  cbn [rstrip]. destruct (rstrip s) as [|c' r] eqn:Er.
  - destruct (isspace c).
    + by exists (String c s).
    + exists s. by rewrite app_cons.
  - exists w. rewrite app_cons. by f_equal.
Qed.

Lemma prefix_lower_take (p r w : string) :
  String.prefix p (lower r) = true ->
  lower (take (String.length p) (r +:+ w)) = p.
Proof.
  revert r. induction p as [|x p IH]; intros r; [done|].
  destruct r as [|c r]; [done|]. cbn [lower map_chars String.prefix].
  destruct (ascii_dec x (lower_char c)) as [->|]; [|done].
  intros Hp. rewrite app_cons. cbn [String.length take lower map_chars].
  f_equal. by apply IH.
Qed.

Lemma insert_start_prefix (table_name line : string) (e : nat) :
  insert_start table_name line = Some e ->
  lstrip line = line ->
  e = String.length (insert_pattern table_name)
  /\ lower (take e line) = insert_pattern table_name.
Proof.
  unfold insert_start, startswith, strip. intros Hs Hl. rewrite Hl in Hs.
  destruct (String.prefix _ _) eqn:Hp; [|done].
  assert (e = String.length (insert_pattern table_name)) as -> by congruence.
  split; [done|]. destruct (rstrip_prefix line) as [w Hw].
  rewrite Hw at 1. by apply prefix_lower_take.
Qed.

Lemma find_take_drop (sub s : string) (i : nat) :
  find sub s = Some i ->
  s = take i s +:+ sub +:+ drop (i + String.length sub) s.
Proof.
  revert i. induction s as [|c s IH]; intros i; cbn [find].
  - destruct (String.prefix sub EmptyString) eqn:Hp; [|done].
    intros [= <-]. destruct sub; [done|discriminate Hp].
  - destruct (String.prefix sub (String c s)) eqn:Hp.
    + intros [= <-]. cbn [take Nat.add]. rewrite app_nil_l.
      rewrite <- (prefix_take _ _ Hp) at 1. by rewrite take_drop.
    + destruct (find sub s) as [j|]; [|done]. cbn. intros [= <-].
      cbn [take drop Nat.add]. rewrite app_cons. f_equal. by apply IH.
Qed.

(** With [--] in the line, the tail that is kept is what the line has
    after its first [);]. *)
Lemma line_tail_kept (line tail : string) :
  contains "--" line = true ->
  line_tail line = Some tail ->
  exists i, find ");" line = Some i /\ line = take i line +:+ ");" +:+ tail.
Proof.
  unfold line_tail. intros ->.
  destruct (find ");" line) as [i|] eqn:Ef; [|done]. intros [= <-].
  exists i. split; [done|]. by apply find_take_drop in Ef.
Qed.

Section ExportTable.
Context {F : Type} `{FloatRepr F}.

Lemma stage_raises_iff (root_path : string) (w : world (F := F))
    (table_name : string) (e : exn) :
  stage_raises root_path w table_name e
  <-> export_updated_lines root_path w table_name = Raise e.
Proof.
  unfold stage_raises, export_updated_lines.
  destruct (fetchall w table_name) as [t|e1]; cbn [bind].
  - destruct (read_fixture w _) as [sql_lines|e2]; cbn [bind].
    + destruct (export_lines _ _ _ _ _) as [st|e3] eqn:E3; cbn [bind].
      * split; [|done].
        intros [?|[(? & _ & ?)|(t' & l' & [= <-] & [= <-] & E)]]; try done.
        congruence.
      * split.
        -- intros [?|[(? & _ & ?)|(t' & l' & [= <-] & [= <-] & E)]];
             try done. congruence.
        -- intros [= <-]. right. right. by exists t, sql_lines.
    + split.
      * intros [?|[(t' & _ & ?)|(t' & l' & _ & ? & _)]]; congruence.
      * intros [= <-]. right. left. by exists t.
  - split.
    + intros [?|[(t' & ? & _)|(t' & l' & ? & _)]]; congruence.
    + intros [= <-]. by left.
Qed.

Lemma fewer_rows_raises (root_path : string) (w : world (F := F))
    (table_name : string) :
  fewer_rows root_path w table_name ->
  exists e, stage_raises root_path w table_name e.
Proof.
  intros (t & content & Ht & Hc & Hlt).
  destruct (export_updated_lines root_path w table_name) as [out|e] eqn:E.
  - exfalso. unfold export_updated_lines, fetchall, read_fixture in E.
    rewrite Ht, Hc in E. cbn [bind] in E.
    destruct (export_lines _ _ _ _ _) as [st|] eqn:El; [|done].
    destruct (export_lines_ok _ _ _ _ _ _ El)
      as (_ & _ & _ & Hrow & [Hz|Hb] & _); cbn in *; lia.
  - exists e. by apply stage_raises_iff.
Qed.

(** C10. [export_table] returns, whatever happens in it; and when an
    exception is raised while the rows are fetched, the fixture is read or
    the lines are gone through, as it is when the table has fewer rows than
    the fixture has INSERT lines, the files are left as they were: the
    exception is printed. *)
Theorem export_table_exception_keeps_files (root_path : string)
    (w : world (F := F)) (table_name : string) :
  (exists w' printed,
      export_table root_path w table_name = (w', printed)
      /\ (printed = None \/ w' = w))
  /\ (forall e,
        stage_raises root_path w table_name e ->
        export_table root_path w table_name = (w, Some e))
  /\ (fewer_rows root_path w table_name ->
      exists e,
        stage_raises root_path w table_name e
        /\ export_table root_path w table_name = (w, Some e)).
Proof.
  assert (forall e,
             stage_raises root_path w table_name e ->
             export_table root_path w table_name = (w, Some e)) as Hraise.
  { intros e He. apply stage_raises_iff in He. unfold export_table.
    by rewrite He. }
  split; [|split; [done|]].
  - unfold export_table.
    destruct (export_updated_lines root_path w table_name);
      eexists _, _; (split; [done|]); [by left|by right].
  - intros Hf. destruct (fewer_rows_raises _ _ _ Hf) as [e He].
    exists e. split; [done|]. by apply Hraise.
Qed.




End ExportTable.

Lemma export_table_exception_keeps_files_witness :
  fewer_rows "/srv" (zones_world [[VInt 7; VStr "new"]]) "zones"
  /\ export_table "/srv" (zones_world [[VInt 7; VStr "new"]]) "zones"
     = (zones_world [[VInt 7; VStr "new"]], Some IndexError).
Proof.
  split.
  - exists (zones_table [[VInt 7; VStr "new"]]), zones_fixture.
    split; [reflexivity|]. split; [reflexivity|]. vm_compute. lia.
  - apply (export_table_exception_keeps_files "/srv"
             (zones_world [[VInt 7; VStr "new"]]) "zones").
    right. right.
    exists (zones_table [[VInt 7; VStr "new"]]), (readlines zones_fixture).
    split; [reflexivity|]. split; reflexivity.
Defined.



(** ** The exit status *)


Lemma class_body_unpopulated
    (connect : string -> Z -> string -> string -> result unit) :
  class_body ∅ connect = Raise KeyError.
Proof. reflexivity. Qed.

Lemma is_command_none (a : Xitool.args) (names : list string) :
  truthy (Xitool.command a) = false ->
  in_list EmptyString names = false ->
  Xitool.is_command a names = false.
Proof.
  unfold Xitool.is_command, truthy.
  destruct (Xitool.command a) as [c|]; [|done].
  destruct (String.eqb_spec c EmptyString) as [->|]; [|done]. done.
Qed.




(** ** The settings *)

Section Settings.
Implicit Types s : gmap string (gmap string string).

Lemma settings_eq s1 s2 :
  (forall file, is_Some (s1 !! file) <-> is_Some (s2 !! file)) ->
  (forall file key, Common.setting s1 file key = Common.setting s2 file key) ->
  s1 = s2.
Proof.
  intros Hp Hv. apply map_eq. intros file.
  specialize (Hp file). specialize (Hv file). unfold Common.setting in Hv.
  destruct (s1 !! file) as [m1|], (s2 !! file) as [m2|]; cbn in Hv.
  - f_equal. by apply map_eq.
  - destruct Hp as [Hp _]. by destruct Hp.
  - destruct Hp as [_ Hp]. by destruct Hp.
  - done.
Qed.

Lemma overlay_id : overlay (fun s => s).
Proof.
  exists (fun _ => False), (fun _ _ => None). intros s file.
  split; [tauto|done].
Qed.

Lemma overlay_compose f g : overlay f -> overlay g -> overlay (fun s => g (f s)).
Proof.
  intros (Pf & Vf & Hf) (Pg & Vg & Hg).
  exists (fun file => Pf file \/ Pg file),
    (fun file key =>
       match Vg file key with Some v => Some v | None => Vf file key end).
  intros s file. destruct (Hf s file) as [Hf1 Hf2].
  destruct (Hg (f s) file) as [Hg1 Hg2]. split.
  - rewrite Hg1, Hf1. tauto.
  - intros key. rewrite Hg2, Hf2. by destruct (Vg file key).
Qed.

Lemma overlay_idempotent f s : overlay f -> f (f s) = f s.
Proof.
  intros (P & V & Hf). apply settings_eq.
  - intros file. destruct (Hf (f s) file) as [-> _].
    destruct (Hf s file) as [-> _]. tauto.
  - intros file key. destruct (Hf (f s) file) as [_ ->].
    destruct (Hf s file) as [_ ->]. by destruct (V file key).
Qed.

Lemma overlay_fold_left {A : Type}
    (step : gmap string (gmap string string) -> A
            -> gmap string (gmap string string))
    (l : list A) :
  (forall x, overlay (fun s => step s x)) ->
  overlay (fun s => fold_left step l s).
Proof.
  intros Hstep. induction l as [|x l IH]; cbn [fold_left].
  - apply overlay_id.
  - apply (overlay_compose (fun s => step s x) (fun s => fold_left step l s));
      auto.
Qed.

(** The lines of a file write fixed values to fixed keys, and store the
    dictionary unless no line gets to do it. *)
Lemma settings_lines_writes (lines : list string) :
  exists (W : string -> option string) (r : bool),
    (r = false -> forall key, W key = None)
    /\ forall (current : gmap string string) (stored : bool),
        (Common.settings_lines lines (current, stored)).2 = stored || r
        /\ forall key,
            (Common.settings_lines lines (current, stored)).1 !! key
            = match W key with Some v => Some v | None => current !! key end.
Proof.
  induction lines as [|line lines (W & r & Hr & IH)].
  - exists (fun _ => None), false. split; [done|]. intros current stored.
    cbn. by rewrite orb_false_r.
  - cbn [Common.settings_lines]. unfold Common.settings_line.
    destruct (String.eqb line EmptyString).
    { exists (fun _ => None), false. split; [done|]. intros current stored.
      cbn. by rewrite orb_false_r. }
    destruct (contains "=" line).
    + match goal with
      | |- context [startswith "--" ?k] => set (key0 := k)
      end.
      destruct (startswith "--" key0).
      * exists W, r. split; [done|]. intros current stored. apply IH.
      * match goal with
        | |- context [<[key0 := ?v]> _] => set (val0 := v)
        end.
        exists (fun key =>
                  match W key with
                  | Some v => Some v
                  | None => if decide (key0 = key) then Some val0 else None
                  end), true.
        split; [done|]. intros current stored.
        destruct (IH (<[key0 := val0]> current) true) as [-> Hk].
        split; [by rewrite orb_true_r|].
        intros key. rewrite Hk. destruct (W key); [done|].
        rewrite lookup_insert. by destruct (decide (key0 = key)).
    + exists W, true. split; [done|]. intros current stored.
      destruct (IH current true) as [-> Hk].
      split; [by rewrite orb_true_r|]. done.
Qed.

Lemma overlay_load_file (filename : string) (lines : list string) :
  overlay (Common.load_file filename lines).
Proof.
  destruct (settings_lines_writes lines) as (W & r & Hr & Hw).
  exists (fun file => file = Common.filename_key filename /\ r = true),
    (fun file key =>
       if decide (file = Common.filename_key filename) then W key else None).
  intros s file. unfold Common.load_file.
  set (fk := Common.filename_key filename).
  destruct (Hw (default ∅ (s !! fk)) (bool_decide (is_Some (s !! fk))))
    as [Hst Hcur].
  destruct (Common.settings_lines lines _) as [current stored].
  cbn [fst snd] in Hst, Hcur. subst stored.
  unfold Common.setting.
  destruct (decide (file = fk)) as [->|Hne].
  - destruct (bool_decide (is_Some (s !! fk))) eqn:Eb; cbn [orb].
    + apply bool_decide_eq_true in Eb. rewrite lookup_insert_eq. split.
      * split; [by left|by eexists].
      * intros key. cbn. rewrite Hcur. destruct (W key); [done|].
        by destruct Eb as [m ->].
    + apply bool_decide_eq_false in Eb. destruct r.
      * rewrite lookup_insert_eq. split.
        -- split; [by right|by eexists].
        -- intros key. cbn. rewrite Hcur. destruct (W key); [done|].
           destruct (s !! fk) as [m|] eqn:Em; [|done].
           exfalso. apply Eb. by eexists.
      * split.
        -- split; [by left|]. intros [?|[_ ?]]; done.
        -- intros key. by rewrite Hr.
  - assert (forall m, <[fk := m]> s !! file = s !! file) as Hins
      by (intros m; by apply lookup_insert_ne).
    destruct (_ || r); rewrite ?Hins; (split; [|done]);
      split; try tauto; intros [?|[? _]]; done.
Qed.

Lemma overlay_populate_dir (fs : Common.dirs) (path : string) :
  overlay (Common.populate_dir fs path).
Proof.
  unfold Common.populate_dir. apply overlay_fold_left. intros name.
  unfold Common.populate_entry.
  destruct (Common.isfile fs _); [|apply overlay_id].
  destruct (Common.readlines fs _); [|apply overlay_id].
  apply overlay_load_file.
Qed.

Lemma overlay_populate_settings (fs : Common.dirs) (root_path : string) :
  overlay (Common.populate_settings fs root_path).
Proof.
  unfold Common.populate_settings. apply overlay_fold_left.
  intros path. apply overlay_populate_dir.
Qed.

(** C6. Loading the settings a second time leaves them as the first time
    left them; and a key that both directories give, each loaded alone,
    has after [populate_settings] the value of the overrides directory. *)
Theorem populate_settings_idempotent_overrides_win (fs : Common.dirs)
    (root_path : string) s :
  Common.populate_settings fs root_path
    (Common.populate_settings fs root_path s)
  = Common.populate_settings fs root_path s
  /\ forall file key from_defaults from_overrides,
      Common.setting
        (Common.populate_dir fs (Common.default_dir root_path) ∅) file key
      = Some from_defaults ->
      Common.setting
        (Common.populate_dir fs (Common.override_dir root_path) ∅) file key
      = Some from_overrides ->
      Common.setting (Common.populate_settings fs root_path s) file key
      = Some from_overrides.
Proof.
  split.
  - apply overlay_idempotent, overlay_populate_settings.
  - intros file key vd vo _ Ho.
    unfold Common.populate_settings. cbn [fold_left].
    destruct (overlay_populate_dir fs (Common.override_dir root_path))
      as (P & V & HV).
    destruct (HV ∅ file) as [_ H0]. rewrite H0 in Ho.
    destruct (HV (Common.populate_dir fs (Common.default_dir root_path) s)
                file) as [_ ->].
    destruct (V file key); [done|].
    unfold Common.setting in Ho. by rewrite lookup_empty in Ho.
Qed.

End Settings.

Lemma populate_settings_idempotent_overrides_win_witness :
  Common.setting
    (Common.populate_dir sample_dirs (Common.default_dir "/srv") ∅)
    "network" "SQL_HOST" = Some "127.0.0.1"
  /\ Common.setting
       (Common.populate_dir sample_dirs (Common.override_dir "/srv") ∅)
       "network" "SQL_HOST" = Some "db.local"
  /\ Common.setting (Common.populate_settings sample_dirs "/srv" ∅)
       "network" "SQL_HOST" = Some "db.local".
Proof.
  split; [reflexivity|]. split; [reflexivity|].
  apply (populate_settings_idempotent_overrides_win sample_dirs "/srv" ∅)
    with (from_defaults := "127.0.0.1"); reflexivity.
Defined.

(** ** The variables of a fixture *)

Lemma scan_lines_declarations (lines : list string) (vars vars' : dict) :
  scan_lines lines vars = Ok vars' ->
  vars' = fold_left add_declaration (declarations lines) vars.
Proof.
  revert vars. induction lines as [|line lines IH]; intros vars;
    cbn [scan_lines declarations].
  - by intros [= <-].
  - unfold scan_variables. rewrite fold_left_app.
    destruct (startswith "SET @" (strip line)).
    + destruct (parse_set line) as [nv|]; cbn [bind]; [|done].
      intros E. by apply IH in E.
    + cbn [bind]. intros E. by apply IH in E.
Qed.

Lemma dict_set_fresh (k v : string) (d : dict) :
  ~ In k (dict_keys d) -> dict_set k v d = d ++ [(k, v)].
Proof.
  induction d as [|[k' v'] d IH]; cbn; [done|]. intros Hn.
  destruct (String.eqb_spec k' k) as [->|]; [tauto|].
  rewrite IH; [done|tauto].
Qed.

Lemma fold_declarations_fresh (decls : list (string * string)) (d : dict) :
  NoDup (dict_keys d ++ map snd decls) ->
  fold_left add_declaration decls d = d ++ map swap decls.
Proof.
  revert d. induction decls as [|[n k] decls IH]; intros d Hd; cbn.
  - by rewrite List.app_nil_r.
  - unfold add_declaration at 2. cbn [fst snd].
    assert (~ In k (dict_keys d)) as Hk.
    { cbn in Hd. apply NoDup_ListNoDup in Hd.
      apply List.NoDup_remove_2 in Hd. intros Hin. apply Hd.
      apply in_app_iff. by left. }
    rewrite (dict_set_fresh _ _ _ Hk), IH.
    + by rewrite <- List.app_assoc.
    + unfold dict_keys in *. rewrite map_app, <- List.app_assoc. exact Hd.
Qed.

Lemma dict_get_declared (decls : list (string * string)) (n k : string) :
  NoDup (map snd decls) -> In (n, k) decls ->
  dict_get k (map swap decls) = Some n.
Proof.
  induction decls as [|[n' k'] decls IH]; cbn; [done|].
  intros Hd [[= -> ->]|Hin].
  - by rewrite String.eqb_refl.
  - apply NoDup_cons in Hd as [Hk Hd].
    destruct (String.eqb_spec k' k) as [->|]; [|by apply IH].
    exfalso. apply Hk. apply list_elem_of_In. apply in_map_iff.
    by exists (n, k).
Qed.

Section Flags.
Context {F : Type} `{FloatRepr F}.

Lemma var_list_declared (vars : dict) (z : Z)
    (decls : list (string * string)) :
  (forall n k, In (n, k) decls -> dict_get k vars = Some n) ->
  Forall (fun d => exists n, int_of_str (snd d) = Ok n) decls ->
  var_list vars (VInt (F := F) z) (map snd decls)
  = Ok (map fst (List.filter (has_bit z) decls)).
Proof.
  intros Hget Hint. induction decls as [|[n k] decls IH]; [done|].
  apply Forall_cons in Hint as [[m Hm] Hint]. cbn [snd] in Hm.
  cbn [map snd var_list]. unfold bit_set, has_bit at 1. cbn [snd].
  rewrite Hm. cbn [bind]. rewrite IH; [|intros; apply Hget; by right|done].
  cbn [bind List.filter]. unfold has_bit at 2. cbn [snd]. rewrite Hm.
  destruct (negb (Z.land z m =? 0)); [|done].
  rewrite (Hget n k) by (by left). done.
Qed.

(** C5, as the code has it. When the values that the preceding lines
    declare are integers and no two declarations give the same text, the
    bitmask column (index 9) of a [pet_skills] row is written as the names
    of the declared constants that have a bit in common with the value, in
    the order of their declarations, joined by [ | ]. *)
Theorem pet_skills_flag_names (lines : list string) (vars : dict)
    (description : list column) (z : Z) :
  scan_lines lines [] = Ok vars ->
  NoDup (map snd (declarations lines)) ->
  Forall (fun d => exists n, int_of_str (snd d) = Ok n)
    (declarations lines) ->
  format_value "pet_skills" description vars 9 (VInt (F := F) z)
  = Ok (join " | "
          (map fst (List.filter (has_bit z) (declarations lines)))).
Proof.
  intros Hs Hd Hi. apply scan_lines_declarations in Hs.
  rewrite fold_declarations_fresh in Hs by done. cbn [app] in Hs. subst vars.
  unfold format_value.
  cbn [String.eqb Ascii.eqb Bool.eqb andb Nat.eqb].
  assert (dict_keys (map swap (declarations lines))
          = map snd (declarations lines)) as ->.
  { unfold dict_keys. rewrite map_map. by apply map_ext. }
  rewrite var_list_declared; [done| |done].
  intros n k Hin. by apply dict_get_declared.
Qed.

End Flags.

Lemma pet_skills_flag_names_witness :
  scan_lines flag_lines []
  = Ok [("1", "@FLAG_A"); ("2", "@FLAG_B"); ("4", "@FLAG_C")]
  /\ format_value "pet_skills" []
       [("1", "@FLAG_A"); ("2", "@FLAG_B"); ("4", "@FLAG_C")] 9
       (VInt (F := Empty_set) 5)
     = Ok "@FLAG_A | @FLAG_C".
Proof.
  split; [reflexivity|].
  apply (pet_skills_flag_names flag_lines
           [("1", "@FLAG_A"); ("2", "@FLAG_B"); ("4", "@FLAG_C")] [] 5).
  - reflexivity.
  - compute_done.
  - repeat constructor; eexists; reflexivity.
Defined.

(** C5, as it is stated, fails: two constants are declared with the value
    1; for the value 1 the column gets the name of the second only. *)
Lemma alias_of_a_value_not_written :
  declarations alias_lines = [("@FLAG_A", "1"); ("@FLAG_B", "1")]
  /\ List.filter (has_bit 1) (declarations alias_lines)
     = [("@FLAG_A", "1"); ("@FLAG_B", "1")]
  /\ exists vars,
      scan_lines alias_lines [] = Ok vars
      /\ format_value "pet_skills" [] vars 9 (VInt (F := Empty_set) 1)
         = Ok "@FLAG_B".
Proof.
  split; [reflexivity|]. split; [reflexivity|].
  eexists. split; reflexivity.
Qed.

(** ** Values and their literals *)

Lemma escape_cons (c : ascii) (s : string) :
  escape (String c s)
  = if Ascii.eqb c "'" then String "\" (String "'" (escape s))
    else String c (escape s).
Proof. unfold escape. cbn [replace]. by destruct (Ascii.eqb c "'"). Qed.

Lemma escape_not_quote (s r : string) : escape s <> String "'" r.
Proof.
  destruct s as [|c s]; [done|]. rewrite escape_cons.
  destruct (Ascii.eqb_spec c "'") as [->|Hc]; [done|]. congruence.
Qed.

Lemma escape_inj (s1 s2 : string) : escape s1 = escape s2 -> s1 = s2.
Proof.
  revert s2. induction s1 as [|c1 s1 IH]; intros [|c2 s2];
    rewrite ?escape_cons.
  - done.
  - by destruct (Ascii.eqb c2 "'").
  - by destruct (Ascii.eqb c1 "'").
  - destruct (Ascii.eqb_spec c1 "'") as [->|H1],
      (Ascii.eqb_spec c2 "'") as [->|H2].
    + intros [= E]. f_equal. by apply IH.
    + intros [= <- E]. symmetry in E. by apply escape_not_quote in E.
    + intros [= -> E]. by apply escape_not_quote in E.
    + intros [= -> E]. f_equal. by apply IH.
Qed.

Lemma quoted_inj (a b : string) : quoted a = quoted b -> a = b.
Proof.
  unfold quoted. intros E. apply app_inv_head in E. by apply app_inv_tail in E.
Qed.

Lemma unhex_hex (x : Byte.byte) :
  unhex (upper_char (hex_digit (Byte.to_N x / 16)))
    (upper_char (hex_digit (Byte.to_N x mod 16)))
  = Some x.
Proof. destruct x; reflexivity. Qed.

Lemma hex_cons (x : Byte.byte) (b : list Byte.byte) :
  upper (hex (x :: b))
  = String (upper_char (hex_digit (Byte.to_N x / 16)))
      (String (upper_char (hex_digit (Byte.to_N x mod 16))) (upper (hex b))).
Proof. reflexivity. Qed.

Lemma hex_inj (a b : list Byte.byte) :
  upper (hex a) = upper (hex b) -> a = b.
Proof.
  revert b. induction a as [|x a IH]; intros [|y b]; rewrite ?hex_cons;
    try done.
  intros [= E1 E2 E]. f_equal; [|by apply IH].
  pose proof (unhex_hex x) as Hx. rewrite E1, E2, unhex_hex in Hx.
  congruence.
Qed.

Lemma hex_literal_inj (a b : list Byte.byte) :
  hex_literal a = hex_literal b -> a = b.
Proof. unfold hex_literal. intros E. by apply app_inv_head, hex_inj in E. Qed.

Lemma decode_latin_1_inj (a b : list Byte.byte) :
  decode_latin_1 a = decode_latin_1 b -> a = b.
Proof.
  unfold decode_latin_1. intros E.
  apply (f_equal String.list_byte_of_string) in E.
  by rewrite !String.list_byte_of_string_of_list_byte in E.
Qed.

Lemma str_of_int_parses (z : Z) :
  NilZero.int_of_string (str_of_int z) = Some (Z.to_int z).
Proof.
  unfold str_of_int. apply NilZero.isi; destruct z; cbn; try done;
    intros [= E]; by apply DecimalPos.Unsigned.to_uint_nonnil in E.
Qed.

Lemma str_of_int_inj (z1 z2 : Z) : str_of_int z1 = str_of_int z2 -> z1 = z2.
Proof.
  intros E. apply DecimalZ.to_int_inj.
  pose proof (str_of_int_parses z1) as H1. rewrite E, str_of_int_parses in H1.
  congruence.
Qed.


Section PlainValues.
Context {F : Type} `{FloatRepr F}.

Lemma format_int_plain (table_name : string) (description : list column)
    (vars : dict) (i : nat) (z : Z) (text : string) :
  plain_column table_name description i ->
  format_value table_name description vars i (VInt (F := F) z) = Ok text ->
  text = str_of_int z.
Proof.
  intros (Hm & Hp & Hf). unfold format_value.
  destruct (String.eqb_spec table_name "mob_droplist") as [Et|];
    destruct (Nat.eqb_spec i 5) as [Ei|]; cbn [andb]; try tauto.
  all: destruct (String.eqb_spec table_name "pet_skills") as [Et'|];
    destruct (Nat.eqb_spec i 9) as [Ei'|]; cbn [andb]; try tauto.
  all: unfold getitem; destruct (nth_error description i) as [col|] eqn:Ec;
    cbn [bind]; try done.
  all: specialize (Hf col eq_refl);
    destruct (Z.eqb_spec (type_code col) FIELD_TYPE_FLOAT);
    destruct (Z.ltb_spec 0 (scale col)); cbn [andb]; try tauto.
  all: by intros [= <-].
Qed.

Lemma format_bytes_cases (table_name : string) (description : list column)
    (vars : dict) (i : nat) (b : list Byte.byte) (text : string) :
  format_value table_name description vars i (VBytes (F := F) b) = Ok text ->
  (b = [] /\ text = quoted EmptyString)
  \/ (b <> [] /\ text = quoted (decode_latin_1 b))
  \/ (b <> [] /\ text = hex_literal b).
Proof.
  unfold format_value. destruct b as [|x b]; cbn [length Nat.eqb].
  - intros [= <-]. by left.
  - destruct (_ && _); [destruct (is_text _)|]; intros [= <-];
      [right; left|right; right|right; right]; done.
Qed.

End PlainValues.


(** * Further properties of the code *)

(** ** What [export_table] touches *)

Lemma find_unfold (sub s : string) :
  find sub s
  = if String.prefix sub s then Some 0%nat
    else match s with
         | EmptyString => None
         | String _ s' => S <$> find sub s'
         end.
Proof. by destruct s. Qed.

Lemma find_char_none (c d : ascii) (s : string) :
  find (String c EmptyString) (String d s) = None ->
  d <> c /\ find (String c EmptyString) s = None.
Proof.
  cbn [find String.prefix]. destruct (ascii_dec c d) as [<-|Hn].
  - by destruct s.
  - destruct (find (String c EmptyString) s); [done|]. by split.
Qed.

Lemma concat_cons (line : string) (lines : list string) :
  String.concat EmptyString (line :: lines)
  = line +:+ String.concat EmptyString lines.
Proof.
  cbn [String.concat]. destruct lines as [|l ls].
  - by rewrite app_nil_r.
  - by rewrite app_nil_l.
Qed.

Lemma concat_line_feed_lines (text : string) :
  String.concat EmptyString (line_feed_lines text) = text.
Proof.
  induction text as [|c rest IH]; [done|]. cbn [line_feed_lines].
  destruct (Ascii.eqb c "010").
  - by rewrite concat_cons, IH.
  - destruct (line_feed_lines rest) as [|l ls].
    + cbn in IH. by subst rest.
    + rewrite concat_cons in *. rewrite app_cons. by f_equal.
Qed.

Lemma writelines_readlines (content : string) :
  writelines (readlines content) = universal_newlines content.
Proof.
  unfold writelines, readlines.
  by rewrite stored_text_posix, concat_line_feed_lines.
Qed.

Lemma universal_newlines_without_cr (s : string) :
  find (String "013" EmptyString) s = None -> universal_newlines s = s.
Proof.
  induction s as [|c s IH]; [done|]. intros Hn.
  apply find_char_none in Hn as [Hc Hn]. cbn [universal_newlines].
  destruct (Ascii.eqb_spec c "013"); [done|]. by rewrite (IH Hn).
Qed.

Section ExportFrame.
Context {F : Type} `{FloatRepr F}.

Lemma export_lines_no_inserts (table_name : string)
    (rows : list (list (value F))) (description : list column)
    (sql_lines : list string) (st st' : export_state) :
  export_lines table_name rows description st sql_lines = Ok st' ->
  count_inserts table_name sql_lines = 0%nat ->
  updated_lines st' = updated_lines st ++ sql_lines.
Proof.
  revert st. induction sql_lines as [|l sql_lines IH]; intros st;
    cbn [export_lines].
  - intros [= <-] _. by rewrite List.app_nil_r.
  - destruct (export_line table_name rows description st l) as [st1|] eqn:E1;
      [|done].
    cbn [bind]. intros E2. rewrite count_inserts_cons. intros Hc.
    destruct (export_line_ok _ _ _ _ _ _ E1) as [_ Hl].
    destruct (is_insert table_name l); [lia|]. destruct Hl as [Hup _].
    rewrite (IH _ E2) by lia. by rewrite Hup, <- List.app_assoc.
Qed.

(** X1. [export_table] changes no file but the fixture of the table, and
    leaves the tables of the database as they are. *)
Theorem export_table_frame (root_path : string) (w : world (F := F))
    (table_name path : string) :
  path <> fixture_path root_path table_name ->
  files (export_table root_path w table_name).1 !! path = files w !! path
  /\ tables (export_table root_path w table_name).1 = tables w.
Proof.
  intros Hne. unfold export_table.
  destruct (export_updated_lines root_path w table_name); cbn; [|done].
  split; [|done]. by apply lookup_insert_ne.
Qed.

(** X2. A fixture without INSERT lines of the table is written back as
    it is read: an export that succeeds stores the content with every
    carriage return and line feed, and every carriage return alone, turned
    into a line feed, and changes nothing else; a fixture without a
    carriage return is left as it was. *)
Theorem export_without_insert_lines (root_path : string)
    (w w' : world (F := F)) (table_name content : string) :
  export_table root_path w table_name = (w', None) ->
  files w !! fixture_path root_path table_name = Some content ->
  count_inserts table_name (readlines content) = 0%nat ->
  files w'
  = <[fixture_path root_path table_name := universal_newlines content]>
      (files w)
  /\ tables w' = tables w
  /\ (contains (String "013" EmptyString) content = false ->
      files w' = files w).
Proof.
  unfold export_table, export_updated_lines, fetchall, read_fixture.
  intros He Hc Hz. rewrite Hc in He.
  destruct (tables w !! table_name) as [t|]; [|done]. cbn [bind] in He.
  destruct (export_lines _ _ _ _ _) as [st|] eqn:El; [|done].
  cbn [bind] in He. injection He as <-. cbn [files tables].
  rewrite (export_lines_no_inserts _ _ _ _ _ _ El Hz). cbn [app export_init
    updated_lines]. rewrite writelines_readlines.
  split; [done|]. split; [done|]. unfold contains. intros Hcr.
  rewrite universal_newlines_without_cr; [by apply insert_id|].
  by destruct (find _ content).
Qed.

Lemma getitem_app {A : Type} (l extra : list A) (i : nat) (a : A) :
  getitem l i = Ok a -> getitem (l ++ extra) i = Ok a.
Proof.
  unfold getitem. destruct (nth_error l i) as [x|] eqn:E; [|done].
  intros [= <-]. rewrite nth_error_app1; [by rewrite E|].
  apply nth_error_Some. congruence.
Qed.

(** X3. The rows that come after those the INSERT lines take are not
    exported: an export that succeeds gives the same lines when the table
    has more rows at its end. *)
Theorem export_ignores_surplus_rows (table_name : string)
    (rows extra : list (list (value F))) (description : list column)
    (sql_lines : list string) (st st' : export_state) :
  export_lines table_name rows description st sql_lines = Ok st' ->
  export_lines table_name (rows ++ extra) description st sql_lines = Ok st'.
Proof.
  revert st. induction sql_lines as [|l sql_lines IH]; intros st;
    cbn [export_lines]; [done|].
  destruct (export_line table_name rows description st l) as [st1|] eqn:E1;
    [|done].
  cbn [bind]. intros E2.
  assert (export_line table_name (rows ++ extra) description st l = Ok st1)
    as ->; [|by apply IH].
  unfold export_line in *.
  destruct (scan_variables l (sql_variables st)) as [vars|]; [|done].
  cbn [bind] in *. destruct (insert_start table_name l); [|done].
  destruct (getitem rows (row_index st)) as [values|] eqn:Eg; [|done].
  by rewrite (getitem_app _ _ _ _ Eg).
Qed.

End ExportFrame.

Lemma export_table_frame_witness :
  "/srv/sql/abilities.sql" <> fixture_path "/srv" "zones"
  /\ files (export_table "/srv" (zones_world []) "zones").1
       !! "/srv/sql/abilities.sql"
     = files (zones_world []) !! "/srv/sql/abilities.sql".
Proof.
  split; [done|].
  apply (export_table_frame "/srv" (zones_world []) "zones"
           "/srv/sql/abilities.sql").
  done.
Defined.

Lemma export_without_insert_lines_witness :
  exists w',
    export_table "/srv" crlf_world "zones" = (w', None)
    /\ files w'
       = {[ "/srv/sql/zones.sql" :=
              "-- zones" +:+ Common.newline +:+ "-- no rows yet"
              +:+ Common.newline ]}.
Proof.
  eexists. split; [reflexivity|].
  rewrite (proj1 (export_without_insert_lines "/srv" crlf_world _ "zones"
                    ("-- zones" +:+ String "013" Common.newline
                     +:+ "-- no rows yet" +:+ String "013" EmptyString)
                    eq_refl eq_refl eq_refl)).
  by apply map_eq; intros path; vm_compute.
Defined.

Lemma export_ignores_surplus_rows_witness :
  exists st',
    export_lines "zones" [[VInt 7; VStr "new"]; [VInt 8; VStr "it's"]]
      (description (zones_table [])) export_init (readlines zones_fixture)
    = Ok st'
    /\ export_lines "zones"
         ([[VInt 7; VStr "new"]; [VInt 8; VStr "it's"]]
          ++ [[VInt 9; VStr "more"]])
         (description (zones_table [])) export_init (readlines zones_fixture)
       = Ok st'.
Proof.
  eexists. split; [reflexivity|].
  apply (export_ignores_surplus_rows "zones"
           [[VInt 7; VStr "new"]; [VInt 8; VStr "it's"]]
           [[VInt 9; VStr "more"]]).
  reflexivity.
Defined.

(** ** Variables and the values written with them *)

Lemma split_not_found (sep s : string) :
  find sep s = None -> split sep s = [s].
Proof.
  unfold split. induction s as [|c s IH]; cbn [find split_go]; [done|].
  destruct (String.prefix sep (String c s)); [done|].
  destruct (find sep s); [done|]. intros _. by rewrite IH.
Qed.

Lemma parse_set_without_equals (line : string) :
  contains "=" (strip line) = false -> exists e, parse_set line = Raise e.
Proof.
  unfold contains, parse_set. destruct (find "=" (strip line)) eqn:Ef; [done|].
  intros _. rewrite (split_not_found _ _ Ef).
  change (getitem [strip line] 0) with (Ok (strip line)). cbn [bind].
  destruct (getitem (split_ws (strip line)) 1); cbn [bind]; [|by eexists].
  change (getitem [strip line] 1) with (Raise (A := string) IndexError).
  cbn [bind]. by eexists.
Qed.

Lemma dict_get_set (k v : string) (d : dict) :
  dict_get k (dict_set k v d) = Some v.
Proof.
  induction d as [|[k' v'] d IH]; cbn.
  - by rewrite String.eqb_refl.
  - destruct (String.eqb k' k) eqn:E; cbn; by rewrite E.
Qed.

Lemma scan_lines_app (lines1 lines2 : list string) (vars : dict) :
  scan_lines (lines1 ++ lines2) vars
  = (let* vars' := scan_lines lines1 vars in scan_lines lines2 vars').
Proof.
  revert vars. induction lines1 as [|l lines1 IH]; intros vars; [done|].
  cbn [app scan_lines]. destruct (scan_variables l vars); cbn [bind]; auto.
Qed.

Section Variables.
Context {F : Type} `{FloatRepr F}.

Lemma export_lines_raises_at (table_name : string)
    (rows : list (list (value F))) (description : list column)
    (sql_lines : list string) (line : string) :
  In line sql_lines ->
  (forall vars, exists e, scan_variables line vars = Raise e) ->
  forall st,
  exists e, export_lines table_name rows description st sql_lines = Raise e.
Proof.
  intros Hin Hline. induction sql_lines as [|l sql_lines IH]; [done|].
  intros st. cbn [export_lines].
  destruct Hin as [->|Hin].
  - unfold export_line. destruct (Hline (sql_variables st)) as [e ->].
    by exists e.
  - destruct (export_line table_name rows description st l) as [st1|e];
      cbn [bind]; [by apply IH|by exists e].
Qed.

(** X4. A line that starts with [SET @] and has no [=] makes the export of
    the table fail: the exception is printed and the files stay as they
    were. *)
Theorem export_fails_on_set_without_value (root_path : string)
    (w : world (F := F)) (table_name content line : string) (t : table) :
  tables w !! table_name = Some t ->
  files w !! fixture_path root_path table_name = Some content ->
  In line (readlines content) ->
  startswith "SET @" (strip line) = true ->
  contains "=" (strip line) = false ->
  exists e, export_table root_path w table_name = (w, Some e).
Proof.
  intros Ht Hc Hin Hs He.
  unfold export_table, export_updated_lines, fetchall, read_fixture.
  rewrite Ht, Hc. cbn [bind].
  destruct (export_lines_raises_at table_name (rows t) (description t)
              (readlines content) line Hin) with (st := export_init)
    as [e ->].
  - intros vars. unfold scan_variables. rewrite Hs.
    destruct (parse_set_without_equals line He) as [e ->]. by exists e.
  - by exists e.
Qed.

(** X5. In column 5 of [mob_droplist] an integer is written as the name
    that the last line before it declares, when that line declares the
    decimal text of the integer. *)
Theorem mob_droplist_last_declaration (lines : list string) (line : string)
    (vars : dict) (name : string) (z : Z) (description : list column) :
  scan_lines (lines ++ [line]) [] = Ok vars ->
  startswith "SET @" (strip line) = true ->
  parse_set line = Ok (name, str_of_int z) ->
  format_value "mob_droplist" description vars 5 (VInt (F := F) z) = Ok name.
Proof.
  rewrite scan_lines_app. intros Hs Hp Hv.
  destruct (scan_lines lines []) as [vars0|]; [|done].
  cbn [bind scan_lines] in Hs. unfold scan_variables in Hs.
  rewrite Hp, Hv in Hs. cbn [bind fst snd] in Hs. injection Hs as <-.
  unfold format_value.
  cbn [String.eqb Ascii.eqb Bool.eqb andb Nat.eqb str_of_number].
  by rewrite dict_get_set.
Qed.

Lemma bit_set_zero (var : string) (n : Z) :
  int_of_str var = Ok n -> bit_set (VInt (F := F) 0) var = Ok false.
Proof. unfold bit_set. intros ->. done. Qed.

(** X6. In the bitmask column of [pet_skills] the integer 0 is written as
    the empty text, whatever constants are declared, as long as their
    values are integers. *)
Theorem pet_skills_zero_is_empty (vars : dict) (description : list column) :
  Forall (fun k => exists n, int_of_str k = Ok n) (dict_keys vars) ->
  format_value "pet_skills" description vars 9 (VInt (F := F) 0)
  = Ok EmptyString.
Proof.
  intros Hk. unfold format_value.
  cbn [String.eqb Ascii.eqb Bool.eqb andb Nat.eqb].
  assert (forall keys,
             Forall (fun k => exists n, int_of_str k = Ok n) keys ->
             var_list vars (VInt (F := F) 0) keys = Ok []) as Hl.
  { induction keys as [|k keys IH]; [done|]. intros Hf.
    apply Forall_cons in Hf as [[n Hn] Hf]. cbn [var_list].
    rewrite (bit_set_zero _ _ Hn), (IH Hf). done. }
  by rewrite (Hl _ Hk).
Qed.

Lemma bit_set_int (z : Z) (var : string) :
  (exists b, bit_set (VInt (F := F) z) var = Ok b)
  \/ bit_set (VInt (F := F) z) var = Raise ValueError.
Proof.
  unfold bit_set, int_of_str.
  destruct (match strip var with
            | String "-" s' => Z.opp <$> int_digits 0 false s'
            | String "+" s' => int_digits 0 false s'
            | s' => int_digits 0 false s'
            end); cbn [bind]; [left; by eexists|by right].
Qed.

(** X7. In the bitmask column of [pet_skills], when the value of a declared
    constant is not a decimal integer, the formatting of an integer raises
    [ValueError]. *)
Theorem pet_skills_bad_constant (vars : dict) (description : list column)
    (z : Z) :
  Exists (fun k => int_of_str k = Raise ValueError) (dict_keys vars) ->
  format_value "pet_skills" description vars 9 (VInt (F := F) z)
  = Raise ValueError.
Proof.
  intros Hk. unfold format_value.
  cbn [String.eqb Ascii.eqb Bool.eqb andb Nat.eqb].
  assert (forall keys,
             Exists (fun k => int_of_str k = Raise ValueError) keys ->
             var_list vars (VInt (F := F) z) keys = Raise ValueError) as Hl.
  { induction keys as [|k keys IH]; intros He; [by inversion He|].
    cbn [var_list]. apply Exists_cons in He as [He|He].
    - unfold bit_set. by rewrite He.
    - destruct (bit_set_int z k) as [[b ->]| ->]; [|done].
      cbn [bind]. by rewrite (IH He). }
  by rewrite (Hl _ Hk).
Qed.

End Variables.

Lemma export_fails_on_set_without_value_witness :
  exists e, export_table "/srv" broken_world "zones" = (broken_world, Some e).
Proof.
  apply (export_fails_on_set_without_value "/srv" broken_world "zones"
           ("SET @ZONE_NONE;" +:+ Common.newline
            +:+ "INSERT INTO `zones` VALUES (1,'old');" +:+ Common.newline)
           ("SET @ZONE_NONE;" +:+ Common.newline)
           (zones_table [[VInt 7; VStr "new"]])); try reflexivity.
  by left.
Defined.

Lemma mob_droplist_last_declaration_witness :
  format_value "mob_droplist" []
    [("10", "@DROP_STEAL")] 5 (VInt (F := Empty_set) 10)
  = Ok "@DROP_STEAL".
Proof.
  apply (mob_droplist_last_declaration ["SET @DROP_NORMAL = 10;"]
           "SET @DROP_STEAL = 10; -- steal"); reflexivity.
Defined.

Lemma pet_skills_zero_is_empty_witness :
  format_value "pet_skills" [] [("1", "@FLAG_A"); ("2", "@FLAG_B")] 9
    (VInt (F := Empty_set) 0)
  = Ok EmptyString.
Proof.
  apply (pet_skills_zero_is_empty [("1", "@FLAG_A"); ("2", "@FLAG_B")]).
  repeat constructor; eexists; reflexivity.
Defined.

Lemma pet_skills_bad_constant_witness :
  format_value "pet_skills" [] [("1", "@FLAG_A"); ("0x02", "@FLAG_B")] 9
    (VInt (F := Empty_set) 3)
  = Raise ValueError.
Proof.
  apply (pet_skills_bad_constant [("1", "@FLAG_A"); ("0x02", "@FLAG_B")]).
  right. left. reflexivity.
Defined.

(** ** Quoted text *)

(** X8. In the text that is written for a [str], every single quote has a
    backslash before it. *)
Theorem escape_quotes_preceded (s : string) (i : nat) :
  String.get i (escape s) = Some "'"%char ->
  exists j, i = S j /\ String.get j (escape s) = Some "\"%char.
Proof.
  revert i. induction s as [|c s IH]; intros i; [by destruct i|].
  rewrite escape_cons. destruct (Ascii.eqb_spec c "'") as [->|Hc].
  - destruct i as [|[|k]]; cbn [String.get]; [done| |].
    + intros _. by exists 0%nat.
    + intros Hk. destruct (IH k Hk) as (j & -> & Hj).
      exists (S (S j)). done.
  - destruct i as [|k]; cbn [String.get]; [congruence|].
    intros Hk. destruct (IH k Hk) as (j & -> & Hj).
    exists (S j). done.
Qed.

Lemma escape_quotes_preceded_witness :
  String.get 3 (escape "it's") = Some "'"%char
  /\ exists j, 3%nat = S j /\ String.get j (escape "it's") = Some "\"%char.
Proof.
  split; [reflexivity|].
  apply (escape_quotes_preceded "it's" 3). reflexivity.
Defined.

(** ** The files selected for an import *)

Lemma pop_permutation (i : nat) (l : list string) (x : string) :
  nth_error l i = Some x -> Permutation (pop i l ++ [x]) l.
Proof.
  revert i. induction l as [|y l IH]; intros i; [by destruct i|].
  destruct i as [|i]; cbn.
  - intros [= ->]. symmetry. apply Permutation_cons_append.
  - intros Hn. constructor. by apply IH.
Qed.

(** X9. Sorting the selected fixtures and moving the triggers fixture to
    the end neither loses a file nor adds one: the list is a permutation
    of the files selected. *)
Theorem sql_files_permutation (cfg : Common.configs) (version : string)
    (t : tree) (root_path : string) :
  Permutation (sql_files cfg version t root_path)
    (changed_files cfg version t root_path).
Proof.
  unfold sql_files, triggers_last.
  set (l := sorted (changed_files cfg version t root_path)).
  assert (Permutation l (changed_files cfg version t root_path)) as Hl
    by apply merge_sort_Permutation.
  destruct (list_index (triggers_file root_path) l) as [i|] eqn:Ei; [|done].
  rewrite (list_index_nth _ _ _ Ei).
  etransitivity; [|exact Hl]. apply pop_permutation.
  by apply list_index_nth.
Qed.

(** X10. When the comparison of the two revisions raises, for a [db_ver]
    that is no commit say, the exception is swallowed and no fixture of the
    [sql] directory is selected: only the files of the modules are. *)
Theorem fetch_files_diff_error (cfg : Common.configs) (version : string)
    (t : tree) (root_path : string) (e : exn) :
  truthy (Common.db_ver cfg) = true ->
  version <> EmptyString ->
  diff_b_paths t (default EmptyString (Common.db_ver cfg)) version
    (sql_dir root_path) = Raise e ->
  fetch_files cfg version t root_path
  = (let* lines := text_lines t (init_txt root_path) in
     Ok (concat (map (module_files t root_path) lines))).
Proof.
  intros Hd Hv He. unfold fetch_files, sql_files, changed_files.
  rewrite Hd, He. apply String.eqb_neq in Hv. cbn [truthy]. rewrite Hv.
  done.
Qed.

(** X11. The import list of [create] is the same for every stored
    configuration: [db_ver] is reset before the files are fetched, so that
    the fixtures are taken from the [sql] directory and never from a
    comparison of revisions. *)
Theorem create_ignores_db_ver (cfg cfg' : Common.configs) (version : string)
    (t : tree) (root_path : string) :
  create_import_files cfg version t root_path
  = create_import_files cfg' version t root_path
  /\ create_import_files cfg version t root_path
     = (let* lines := text_lines t (init_txt root_path) in
        Ok (map (protected_file root_path) protected_tables
            ++ triggers_last root_path (sorted (walk_files t root_path))
            ++ concat (map (module_files t root_path) lines))).
Proof.
  unfold create_import_files, fetch_files, sql_files, changed_files.
  cbn [Common.db_ver truthy andb]. split; [done|].
  by destruct (text_lines t (init_txt root_path)).
Qed.

(** X12. The import list of [update] does not depend on the tables that
    the database has: the rows that [check_missing] returns never equal the
    name of a table. *)
Theorem update_ignores_schema (cfg : Common.configs) (version : string)
    (t : tree) (schema schema' : list string) (root_path : string) :
  update cfg version t schema root_path
  = update cfg version t schema' root_path.
Proof. by rewrite !update_protected_files. Qed.

Lemma rev_onto_app (s acc : string) : rev_onto s acc = reverse s +:+ acc.
Proof.
  unfold reverse. revert acc. induction s as [|c s IH]; intros acc; [done|].
  cbn [rev_onto]. rewrite IH, (IH (String c EmptyString)).
  by rewrite app_assoc.
Qed.

Lemma reverse_cons (c : ascii) (s : string) :
  reverse (String c s) = reverse s +:+ String c EmptyString.
Proof. unfold reverse at 1. cbn [rev_onto]. apply rev_onto_app. Qed.

Lemma reverse_app (a b : string) :
  reverse (a +:+ b) = reverse b +:+ reverse a.
Proof.
  induction a as [|c a IH]; [by rewrite app_nil_l, app_nil_r|].
  by rewrite app_cons, !reverse_cons, IH, app_assoc.
Qed.

Lemma reverse_involutive (s : string) : reverse (reverse s) = s.
Proof.
  induction s as [|c s IH]; [done|].
  by rewrite reverse_cons, reverse_app, IH.
Qed.

Lemma endswith_split (p s : string) :
  endswith p s = true -> exists x, s = x +:+ p.
Proof.
  unfold endswith. intros Hp. apply prefix_take in Hp.
  pose proof (take_drop (String.length (reverse p)) (reverse s)) as Htd.
  rewrite Hp in Htd. apply (f_equal reverse) in Htd.
  rewrite reverse_app, !reverse_involutive in Htd.
  by exists (reverse (drop (String.length (reverse p)) (reverse s))).
Qed.

Lemma drop_last_app (x p : string) :
  Common.drop_last (String.length p) (x +:+ p) = x.
Proof.
  unfold Common.drop_last. rewrite app_length.
  replace (String.length x + String.length p - String.length p)%nat
    with (String.length x) by lia.
  apply take_app_length.
Qed.

Lemma in_list_In (x : string) (l : list string) :
  in_list x l = true <-> In x l.
Proof.
  unfold in_list. rewrite existsb_exists. split.
  - intros (y & Hy & E). by apply String.eqb_eq in E as ->.
  - intros Hx. exists x. by rewrite String.eqb_refl.
Qed.

(** X13. Without a comparison of revisions, every fixture selected is a
    file of the [sql] directory whose name ends in [.sql] and whose stem is
    not a protected table. *)
Theorem walk_files_selected (t : tree) (root_path file : string) :
  In file (walk_files t root_path) ->
  exists filenames stem,
    walk_filenames t (sql_dir root_path) = Some filenames
    /\ In (stem +:+ ".sql") filenames
    /\ file = sql_file root_path (stem +:+ ".sql")
    /\ ~ In stem protected_tables.
Proof.
  unfold walk_files.
  destruct (walk_filenames t (sql_dir root_path)) as [filenames|]; [|done].
  intros Hin. apply in_map_iff in Hin as (name & <- & Hin).
  apply filter_In in Hin as [Hin Hc].
  apply andb_true_iff in Hc as [He Hp].
  apply endswith_split in He as [stem ->].
  exists filenames, stem. split; [done|].
  split; [by apply sorted_In|]. split; [done|].
  change 4%nat with (String.length ".sql") in Hp.
  rewrite drop_last_app in Hp. apply negb_true_iff in Hp.
  intros Hs. apply in_list_In in Hs. congruence.
Qed.

Lemma list_remove_absent (x : string) (l : list string) :
  ~ In x l -> Xitool.list_remove x l = Raise ValueError.
Proof.
  induction l as [|y l IH]; [done|]. cbn. intros Hn.
  destruct (String.eqb_spec y x) as [->|]; [tauto|].
  rewrite IH; [done|tauto].
Qed.

(** X14. [export --all] raises [ValueError] when the [sql] directory has no
    file [triggers.sql]: the name is removed from the list of tables
    without a test that it is there. *)
Theorem export_all_needs_triggers {F : Type} `{FloatRepr F}
    (sys : Xitool.system) (a : Xitool.args) (status : Z)
    (w : world (F := F)) :
  Xitool.all a = true ->
  (forall filenames,
      walk_filenames (Xitool.files_seen sys) (sql_dir (Xitool.root_path sys))
      = Some filenames ->
      ~ In "triggers.sql" filenames) ->
  Xitool.export_step sys a status w = Raise ValueError.
Proof.
  intros Ha Hn. unfold Xitool.export_step, Xitool.export_tables.
  rewrite Ha, andb_false_r. rewrite list_remove_absent; [done|].
  destruct (walk_filenames _ _) as [filenames|]; [|by intros []].
  intros Hin. apply in_map_iff in Hin as (name & Hname & Hin).
  apply filter_In in Hin as [Hin He].
  apply endswith_split in He as [stem ->].
  change 4%nat with (String.length ".sql") in Hname.
  rewrite drop_last_app in Hname. subst stem.
  apply (proj1 (sorted_In _ _)) in Hin. apply (Hn filenames eq_refl).
  exact Hin.
Qed.

Lemma fetch_files_diff_error_witness :
  fetch_files stale_configs "0a1b2c3d" bare_tree "/srv"
  = Ok ["/srv/modules/extra.sql"].
Proof.
  apply (fetch_files_diff_error stale_configs "0a1b2c3d" bare_tree "/srv"
           ValueError); done.
Defined.

Lemma walk_files_selected_witness :
  In "/srv/sql/zones.sql" (walk_files sample_tree "/srv")
  /\ exists filenames stem,
      walk_filenames sample_tree (sql_dir "/srv") = Some filenames
      /\ In (stem +:+ ".sql") filenames
      /\ "/srv/sql/zones.sql" = sql_file "/srv" (stem +:+ ".sql")
      /\ ~ In stem protected_tables.
Proof.
  assert (In "/srv/sql/zones.sql" (walk_files sample_tree "/srv")) as Hin.
  { vm_compute. tauto. }
  split; [exact Hin|].
  exact (walk_files_selected sample_tree "/srv" "/srv/sql/zones.sql" Hin).
Defined.

Lemma export_all_needs_triggers_witness :
  Xitool.export_step bare_system export_all_args 0 (zones_world [])
  = Raise ValueError.
Proof.
  apply (export_all_needs_triggers bare_system export_all_args 0
           (zones_world [])); [reflexivity|].
  intros filenames [= <-] [E|[E|[]]]; discriminate E.
Defined.

(** ** The keys of the settings *)

Lemma prefix_slash (c : ascii) (s : string) :
  String.prefix "/" (String c s) = true -> c = "/"%char.
Proof.
  cbn [String.prefix]. by destruct (ascii_dec "/" c) as [<-|].
Qed.

Lemma split_slash_cons (s : string) :
  split "/" (String "/" s) = EmptyString :: split "/" s.
Proof.
  unfold split. cbn [split_go String.prefix].
  destruct (ascii_dec "/" "/"); [|done]. by destruct s.
Qed.

Lemma split_other_cons (c : ascii) (s : string) :
  c <> "/"%char ->
  split "/" (String c s)
  = match split "/" s with
    | h :: t => String c h :: t
    | [] => [String c EmptyString]
    end.
Proof.
  intros Hc. unfold split. cbn [split_go].
  destruct (String.prefix "/" (String c s)) eqn:Hp; [|done].
  by apply prefix_slash in Hp.
Qed.

Lemma split_after_slash (z y : string) :
  find "/" y = None ->
  exists pieces,
    split "/" ((z +:+ "/") +:+ y) = pieces ++ [y] /\ pieces <> [].
Proof.
  intros Hy. induction z as [|c z (pieces & IH & Hp)].
  - exists [EmptyString]. split; [|done].
    rewrite app_nil_l, app_cons, app_nil_l, split_slash_cons.
    by rewrite (split_not_found _ _ Hy).
  - rewrite !app_cons. destruct (ascii_dec c "/") as [->|Hc].
    + rewrite split_slash_cons, IH. by exists (EmptyString :: pieces).
    + rewrite (split_other_cons _ _ Hc), IH.
      destruct pieces as [|h t]; [done|]. by exists (String c h :: t).
Qed.

(** X15. For a file whose name is a stem without a slash and four more
    characters, as [.lua] is, the key under which the settings of the file
    are stored is the stem, whatever the directory: the files of that name
    in the two directories share one key. (The key is the path without
    its last four characters, after the last slash: of a shorter name it
    takes characters of the directory.) *)
Theorem filename_key_stem (dir stem ext : string) :
  String.length ext = 4%nat ->
  find "/" stem = None ->
  startswith "/" (stem +:+ ext) = false ->
  Common.filename_key (path_join dir (stem +:+ ext)) = stem.
Proof.
  intros Hl Hs Hn. unfold Common.filename_key.
  assert (exists prefix,
             path_join dir (stem +:+ ext) = (prefix +:+ stem) +:+ ext
             /\ (prefix = EmptyString \/ exists z, prefix = z +:+ "/"))
    as (prefix & -> & Hprefix).
  { unfold path_join. rewrite Hn.
    destruct (String.eqb_spec dir EmptyString) as [->|Hd]; cbn [orb].
    - exists EmptyString. split; [done|by left].
    - destruct (endswith "/" dir) eqn:He.
      + exists dir. split; [by rewrite app_assoc|]. right.
        by apply endswith_split in He.
      + exists (dir +:+ "/"). split; [by rewrite !app_assoc|].
        right. by exists dir. }
  rewrite <- Hl, drop_last_app.
  destruct Hprefix as [->|[z ->]].
  - by rewrite app_nil_l, (split_not_found _ _ Hs).
  - destruct (split_after_slash z stem Hs) as (pieces & -> & _).
    apply last_last.
Qed.

Lemma filename_key_stem_witness :
  Common.filename_key (path_join "/srv/settings/default" "network.lua")
  = "network"
  /\ Common.filename_key (path_join "/srv/settings" "network.lua")
     = "network".
Proof.
  split.
  - apply (filename_key_stem "/srv/settings/default" "network" ".lua");
      reflexivity.
  - apply (filename_key_stem "/srv/settings" "network" ".lua"); reflexivity.
Defined.

(** X16. Loading the settings never removes what is there: a file that has
    an entry keeps one, and a key that has a value keeps one (its own, or
    the one a settings file gives it). *)
Theorem populate_settings_keeps_keys (fs : Common.dirs) (root_path : string)
    (s : gmap string (gmap string string)) (file key v : string) :
  Common.setting s file key = Some v ->
  is_Some (Common.populate_settings fs root_path s !! file)
  /\ exists v',
      Common.setting (Common.populate_settings fs root_path s) file key
      = Some v'.
Proof.
  intros Hv. destruct (overlay_populate_settings fs root_path) as (P & V & HV).
  destruct (HV s file) as [Hp Hk]. split.
  - apply Hp. left. unfold Common.setting in Hv.
    destruct (s !! file); [by eexists|done].
  - rewrite Hk. destruct (V file key); by eexists.
Qed.

Lemma populate_settings_keeps_keys_witness :
  exists v',
    Common.setting
      (Common.populate_settings sample_dirs "/srv"
         {[ "main" := {[ "SERVER_NAME" := "Nameless" ]} ]})
      "main" "SERVER_NAME"
    = Some v'.
Proof.
  apply (populate_settings_keeps_keys sample_dirs "/srv"
           {[ "main" := {[ "SERVER_NAME" := "Nameless" ]} ]}
           "main" "SERVER_NAME" "Nameless").
  reflexivity.
Defined.

(** ** What [main] and [create] depend on *)

Lemma fetch_errors_stderr (r r' : completed) :
  stderr r = stderr r' -> fetch_errors r = fetch_errors r'.
Proof. unfold fetch_errors. by intros ->. Qed.

(** X17. [create] never reads a return code: when the statements that can
    raise have the same outcomes, and the programs write the same to the
    standard error stream, [create] returns the same, whatever the return
    codes of the programs are. *)
Theorem create_ignores_return_codes (cfg : Common.configs) (version : string)
    (t : tree) (root_path : string)
    (drop_database select_database write_configs : result unit)
    (mysqladmin mysqladmin' : completed)
    (import_file import_file' : string -> completed) :
  stderr mysqladmin = stderr mysqladmin' ->
  (forall file, stderr (import_file file) = stderr (import_file' file)) ->
  create cfg version t root_path drop_database mysqladmin select_database
    import_file write_configs
  = create cfg version t root_path drop_database mysqladmin' select_database
      import_file' write_configs.
Proof.
  intros Hm Hi. unfold create, import_errors.
  destruct drop_database; [|done]. cbn [bind].
  destruct select_database; [|done]. cbn [bind].
  destruct (create_import_files cfg version t root_path) as [l|]; [|done].
  cbn [bind]. rewrite (fetch_errors_stderr _ _ Hm).
  assert (forall A (f g : string -> A), (forall x, f x = g x) ->
            map f l = map g l) as map_ext'
      by (intros A f g Hfg; induction l; cbn; by rewrite ?Hfg, ?IHl).
  rewrite (map_ext' _ _
             (fun sql_file =>
                if path_exists t (replace "\" "/" (normpath t sql_file))
                then fetch_errors
                       (import_file'
                          (replace "\" "/" (normpath t sql_file)))
                else [])); [done|].
  intros file.
  destruct (path_exists t _); [|done]. by apply fetch_errors_stderr.
Qed.

Lemma create_ignores_return_codes_witness :
  create sample_configs "0a1b2c3d" sample_tree "/srv" (Ok tt)
    {| returncode := 0; stderr := EmptyString |} (Ok tt)
    (fun _ =>
       {| returncode := 1; stderr := "ERROR 1064 (42000) at line 1" |})
    (Ok tt)
  = Ok false.
Proof.
  rewrite (create_ignores_return_codes sample_configs "0a1b2c3d" sample_tree
             "/srv" (Ok tt) (Ok tt) (Ok tt)
             _ {| returncode := 0; stderr := EmptyString |}
             _ (fun _ =>
                  {| returncode := 0;
                     stderr := "ERROR 1064 (42000) at line 1" |}));
    reflexivity.
Defined.

(** ** INSERT lines with white space before them *)

Lemma lstrip_app_space (ws body : string) :
  lstrip ws = EmptyString -> lstrip (ws +:+ body) = lstrip body.
Proof.
  induction ws as [|c ws IH]; [by rewrite app_nil_l|].
  rewrite app_cons. cbn [lstrip]. destruct (isspace c); [exact IH|done].
Qed.

Lemma take_app_le (n : nat) (a b : string) :
  (String.length a <= n)%nat ->
  take n (a +:+ b) = a +:+ take (n - String.length a) b.
Proof.
  revert n. induction a as [|c a IH]; intros n Hn.
  - by rewrite !app_nil_l, Nat.sub_0_r.
  - destruct n as [|n]; cbn [String.length] in Hn; [lia|].
    rewrite !app_cons. cbn [take String.length Nat.sub]. f_equal.
    apply IH. lia.
Qed.

(** X18. An INSERT line with white space before it is cut in the wrong
    place: the match is made on the stripped line and its end is used on
    the line itself, so that the line written keeps the white space and
    loses as many characters at the end of its INSERT prefix. *)
Theorem indented_insert_line {F : Type} `{FloatRepr F} (table_name : string)
    (rows : list (list (value F))) (description : list column)
    (st st' : export_state) (ws body : string) :
  lstrip ws = EmptyString ->
  lstrip body = body ->
  (String.length ws <= String.length (insert_pattern table_name))%nat ->
  is_insert table_name (ws +:+ body) = true ->
  export_line table_name rows description st (ws +:+ body) = Ok st' ->
  lower (take (String.length (insert_pattern table_name)) body)
  = insert_pattern table_name
  /\ exists values texts tail,
      nth_error rows (row_index st) = Some values
      /\ format_values table_name description (sql_variables st') 0 values
         = Ok texts
      /\ line_tail (ws +:+ body) = Some tail
      /\ updated_lines st'
         = updated_lines st
           ++ [ws
               +:+ take (String.length (insert_pattern table_name)
                         - String.length ws) body
               +:+ join "," texts +:+ ");" +:+ tail].
Proof.
  intros Hws Hbody Hlen Hi He.
  apply export_line_ok in He as [_ He]. rewrite Hi in He.
  destruct He as (values & new & Hv & (e & texts & tail & Hs & Hf & Ht & ->)
                  & Hu & _).
  assert (insert_start table_name body = Some e) as Hb.
  { revert Hs. unfold insert_start, strip.
    by rewrite (lstrip_app_space _ _ Hws). }
  destruct (insert_start_prefix _ _ _ Hb Hbody) as [-> Hp].
  split; [done|]. exists values, texts, tail.
  by rewrite Hu, (take_app_le _ _ _ Hlen), !app_assoc.
Qed.

Lemma indented_insert_line_witness :
  lower (take (String.length (insert_pattern "zones"))
           ("INSERT INTO `zones` VALUES (1);" +:+ Common.newline))
  = insert_pattern "zones"
  /\ exists values texts tail,
      nth_error [[VInt (F := Empty_set) 7]] 0 = Some values
      /\ format_values "zones" [ {| type_code := 3; scale := 0 |} ] [] 0
           values = Ok texts
      /\ line_tail
           (" " +:+ "INSERT INTO `zones` VALUES (1);" +:+ Common.newline)
         = Some tail
      /\ [" INSERT INTO `zones` VALUES 7);" +:+ Common.newline]
         = [] ++ [" "
                  +:+ take (String.length (insert_pattern "zones")
                            - String.length " ")
                        ("INSERT INTO `zones` VALUES (1);"
                         +:+ Common.newline)
                  +:+ join "," texts +:+ ");" +:+ tail].
Proof.
  apply (indented_insert_line "zones" [[VInt (F := Empty_set) 7]]
           [ {| type_code := 3; scale := 0 |} ]
           export_init
           {| sql_variables := [];
              updated_lines :=
                [" INSERT INTO `zones` VALUES 7);" +:+ Common.newline];
              row_index := 1 |}
           " " ("INSERT INTO `zones` VALUES (1);" +:+ Common.newline));
    [reflexivity|reflexivity|vm_compute; lia|reflexivity|reflexivity].
Defined.

(** ** The fixtures of the protected tables *)

Lemma export_table_other_file {F : Type} `{FloatRepr F} (root_path : string)
    (w : world (F := F)) (table_name path : string) :
  path <> fixture_path root_path table_name ->
  files (export_table root_path w table_name).1 !! path = files w !! path.
Proof.
  intros Hne. unfold export_table.
  destruct (export_updated_lines root_path w table_name); cbn; [|done].
  by apply lookup_insert_ne.
Qed.

Lemma list_remove_In (x : string) (l r : list string) (y : string) :
  Xitool.list_remove x l = Ok r -> In y r -> In y l.
Proof.
  revert r. induction l as [|z l IH]; intros r; [done|]. cbn.
  destruct (String.eqb z x).
  - intros [= <-]. tauto.
  - destruct (Xitool.list_remove x l) as [r'|]; [|done]. cbn.
    intros [= <-] [->|Hin]; [tauto|]. right. by apply (IH r').
Qed.

Lemma startswith_slash_take (n : nat) (s : string) :
  startswith "/" s = false -> startswith "/" (take n s) = false.
Proof.
  unfold startswith.
  assert (forall x, String.prefix EmptyString x = true) as Hnil
      by (by intros []).
  destruct s as [|c s], n as [|n]; cbn [take String.prefix]; try done.
  destruct (ascii_dec "/" c); [|done]. by rewrite !Hnil.
Qed.

Lemma startswith_slash_app (s ext : string) :
  startswith "/" s = false ->
  startswith "/" ext = false ->
  startswith "/" (s +:+ ext) = false.
Proof.
  unfold startswith. destruct s as [|c s]; [by rewrite app_nil_l|].
  assert (forall x, String.prefix EmptyString x = true) as Hnil
      by (by intros []).
  rewrite app_cons. cbn [String.prefix].
  destruct (ascii_dec "/" c); [|done]. by rewrite !Hnil.
Qed.

Lemma fixture_path_inj (root_path table_name table_name' : string) :
  startswith "/" table_name = false ->
  startswith "/" table_name' = false ->
  fixture_path root_path table_name = fixture_path root_path table_name' ->
  table_name = table_name'.
Proof.
  intros Ht Ht'. unfold fixture_path.
  generalize (path_join root_path "sql"). intros dir. unfold path_join.
  rewrite (startswith_slash_app _ ".sql" Ht eq_refl),
    (startswith_slash_app _ ".sql" Ht' eq_refl).
  destruct (String.eqb dir EmptyString || endswith "/" dir); intros E.
  - apply app_inv_head in E. by apply app_inv_tail in E.
  - do 2 apply app_inv_head in E. by apply app_inv_tail in E.
Qed.

Lemma protected_tables_relative (p : string) :
  In p protected_tables -> startswith "/" p = false.
Proof.
  assert (forallb (fun p => negb (startswith "/" p)) protected_tables = true)
    as Hall by reflexivity.
  intros Hin. apply negb_true_iff.
  exact (proj1 (forallb_forall _ _) Hall p Hin).
Qed.

Lemma export_each_other_file {F : Type} `{FloatRepr F} (sys : Xitool.system)
    (tables : list string) (w : world (F := F)) (p : string) :
  In p protected_tables ->
  Forall (fun table => startswith "/" table = false) tables ->
  files (Xitool.export_each sys tables w)
    !! fixture_path (Xitool.root_path sys) p
  = files w !! fixture_path (Xitool.root_path sys) p.
Proof.
  intros Hp Hall. revert w. unfold Xitool.export_each.
  induction Hall as [|table tables Ht _ IH]; intros w; [done|].
  cbn [fold_left]. rewrite IH.
  destruct (in_list table protected_tables) eqn:Ein; [done|].
  apply export_table_other_file. intros E.
  apply fixture_path_inj in E; [|by apply protected_tables_relative|done].
  subst table. apply in_list_In in Hp. congruence.
Qed.

(** X19. [export --all] leaves the fixture of every protected table as it
    is, when no file name of the [sql] directory starts with a slash (the
    names that [os.walk] gives never do). *)
Theorem export_all_keeps_protected_fixtures {F : Type} `{FloatRepr F}
    (sys : Xitool.system) (a : Xitool.args) (status status' : Z)
    (w w' : world (F := F)) (p : string) :
  Xitool.all a = true ->
  (forall filenames,
      walk_filenames (Xitool.files_seen sys) (sql_dir (Xitool.root_path sys))
      = Some filenames ->
      Forall (fun name => startswith "/" name = false) filenames) ->
  Xitool.export_step sys a status w = Ok (status', w') ->
  In p protected_tables ->
  files w' !! fixture_path (Xitool.root_path sys) p
  = files w !! fixture_path (Xitool.root_path sys) p.
Proof.
  intros Ha Hnames. unfold Xitool.export_step.
  rewrite Ha, andb_false_r.
  destruct (Xitool.export_tables sys) as [tables|] eqn:Et; [|done].
  cbn [bind]. intros [= _ <-] Hp.
  apply export_each_other_file; [done|].
  apply List.Forall_forall. intros table Hin.
  unfold Xitool.export_tables in Et.
  apply (list_remove_In _ _ _ _ Et) in Hin.
  destruct (walk_filenames _ _) as [filenames|] eqn:Ew; [|by destruct Hin].
  apply in_map_iff in Hin as (name & <- & Hin).
  apply filter_In in Hin as [Hin _].
  apply (proj1 (sorted_In _ _)) in Hin.
  apply startswith_slash_take.
  exact (proj1 (List.Forall_forall _ _) (Hnames filenames eq_refl) name Hin).
Qed.

Lemma export_all_keeps_protected_fixtures_witness :
  files (Xitool.export_each guarded_system ["chars"; "zones"] guarded_world)
    !! fixture_path "/srv" "chars"
  = Some chars_fixture.
Proof.
  rewrite (export_all_keeps_protected_fixtures guarded_system export_all_args
             0 0 guarded_world
             (Xitool.export_each guarded_system ["chars"; "zones"]
                guarded_world)
             "chars");
    [reflexivity|reflexivity| |reflexivity|vm_compute; tauto].
  intros filenames [= <-]. by repeat constructor.
Defined.

(** ** When [create] reports success *)




(** ** The lines of a settings file *)

Lemma find_char_app (c : ascii) (a b : string) :
  find (String c EmptyString) a = None ->
  find (String c EmptyString) (a +:+ String c b) = Some (String.length a).
Proof.
  induction a as [|d a IH]; intros Hn.
  - rewrite app_nil_l. cbn [find String.prefix].
    destruct (ascii_dec c c); [|done]. by destruct b.
  - apply find_char_none in Hn as [Hd Hn]. rewrite app_cons.
    cbn [find String.prefix String.length].
    destruct (ascii_dec c d) as [<-|_]; [done|]. by rewrite (IH Hn).
Qed.

Lemma replace_absent (c : ascii) (new s : string) :
  find (String c EmptyString) s = None -> replace c new s = s.
Proof.
  induction s as [|d s IH]; [done|]. intros Hn.
  apply find_char_none in Hn as [Hd Hn]. cbn [replace].
  destruct (Ascii.eqb_spec d c); [done|]. by rewrite (IH Hn).
Qed.

Lemma replace_app (c : ascii) (new a b : string) :
  replace c new (a +:+ b) = replace c new a +:+ replace c new b.
Proof.
  induction a as [|d a IH]; [by rewrite !app_nil_l|].
  rewrite app_cons. cbn [replace]. rewrite IH.
  destruct (Ascii.eqb d c); [by rewrite app_assoc|done].
Qed.

Lemma rstrip_cons (c : ascii) (s : string) :
  rstrip (String c s)
  = match rstrip s with
    | EmptyString =>
        if isspace c then EmptyString else String c EmptyString
    | String d r => String c (String d r)
    end.
Proof. reflexivity. Qed.

Lemma rstrip_idempotent (s : string) : rstrip (rstrip s) = rstrip s.
Proof.
  induction s as [|c s IH]; [done|]. rewrite rstrip_cons.
  destruct (rstrip s) as [|d r] eqn:E.
  - destruct (isspace c) eqn:Ec; [done|]. by rewrite rstrip_cons, Ec.
  - by rewrite rstrip_cons, IH.
Qed.

Lemma lstrip_head (s : string) (c : ascii) (r : string) :
  lstrip s = String c r -> isspace c = false.
Proof.
  induction s as [|d s IH]; [done|]. cbn [lstrip].
  destruct (isspace d) eqn:Ed; [exact IH|]. by intros [= <- _].
Qed.

Lemma rstrip_head (c : ascii) (r : string) :
  isspace c = false -> exists r', rstrip (String c r) = String c r'.
Proof.
  intros Hc. rewrite rstrip_cons. destruct (rstrip r) as [|d r'].
  - rewrite Hc. by eexists.
  - by eexists.
Qed.

Lemma strip_idempotent (s : string) : strip (strip s) = strip s.
Proof.
  unfold strip. destruct (lstrip s) as [|c r] eqn:E; [done|].
  apply lstrip_head in E. destruct (rstrip_head c r E) as [r' Hr].
  rewrite Hr. cbn [lstrip]. rewrite E, <- Hr. apply rstrip_idempotent.
Qed.

Lemma find_app_some (sub x y : string) :
  exists i, find sub (x +:+ sub +:+ y) = Some i.
Proof.
  induction x as [|c x [i IH]].
  - exists 0%nat. by rewrite app_nil_l, find_unfold, prefix_app.
  - rewrite app_cons, find_unfold.
    destruct (String.prefix sub _); [by eexists|]. rewrite IH. by eexists.
Qed.

Lemma find_reverse_none (sub s : string) :
  find (reverse sub) s = None -> find sub (reverse s) = None.
Proof.
  intros Hn. destruct (find sub (reverse s)) as [i|] eqn:E; [|done].
  apply find_take_drop in E. apply (f_equal reverse) in E.
  rewrite reverse_involutive, !reverse_app in E.
  destruct (find_app_some (reverse sub)
              (reverse (drop (i + String.length sub) (reverse s)))
              (reverse (take i (reverse s)))) as [j Hj].
  rewrite <- app_assoc, <- E in Hj. congruence.
Qed.

Lemma rsplit_not_found (s : string) :
  contains "--" s = false -> rsplit "--" s = [s].
Proof.
  unfold contains, rsplit. intros Hn.
  rewrite split_not_found.
  - cbn [map rev app]. by rewrite reverse_involutive.
  - change (reverse "--") with "--". apply find_reverse_none.
    change (reverse "--") with "--". by destruct (find "--" s).
Qed.

Lemma endswith_app (x p : string) : endswith p (x +:+ p) = true.
Proof. unfold endswith. rewrite reverse_app. apply prefix_app. Qed.

(** X21. A line [lhs = "v",] of a settings file sets the key that is [lhs]
    without the white space around it to [v]: the quotes and the comma
    are taken off, whatever [v] holds apart from [--] and a line feed. *)
Theorem settings_line_quoted_value (lhs rhs v : string)
    (current_settings : gmap string string) (stored : bool) :
  contains "=" lhs = false ->
  contains Common.newline lhs = false ->
  contains Common.newline rhs = false ->
  startswith "--" (strip lhs) = false ->
  strip rhs = Common.quote +:+ v +:+ Common.quote +:+ "," ->
  contains "--" (strip rhs) = false ->
  Common.settings_line (lhs +:+ "=" +:+ rhs +:+ Common.newline)
    (current_settings, stored)
  = Some (<[strip lhs := v]> current_settings, true).
Proof.
  unfold contains. intros He Hl Hr Hk Hv Hc.
  assert (find "=" lhs = None) as He' by (by destruct (find "=" lhs)).
  assert (find Common.newline lhs = None) as Hl'
      by (by destruct (find Common.newline lhs)).
  assert (find Common.newline rhs = None) as Hr'
      by (by destruct (find Common.newline rhs)).
  clear He Hl Hr. unfold Common.settings_line.
  assert (String.eqb (lhs +:+ "=" +:+ rhs +:+ Common.newline) EmptyString
          = false) as -> by (by destruct lhs).
  unfold contains.
  change ("=" +:+ rhs +:+ Common.newline)
    with (String "=" (rhs +:+ Common.newline)) at 1.
  rewrite (find_char_app "=" lhs _ He').
  rewrite !replace_app, (replace_absent "010" _ lhs Hl'),
    (replace_absent "010" _ rhs Hr').
  change (replace "010" EmptyString "=") with "=".
  change (replace "010" EmptyString Common.newline) with EmptyString.
  rewrite app_nil_r. unfold split1.
  change ("=" +:+ rhs) with (String "=" rhs).
  rewrite (find_char_app "=" lhs _ He'). cbn [nth].
  rewrite take_app_length, <- drop_drop, drop_app_length.
  change (drop (String.length "=") (String "=" rhs)) with rhs. rewrite Hk.
  rewrite (rsplit_not_found _ Hc). cbn [nth].
  rewrite strip_idempotent, Hv.
  unfold startswith. rewrite prefix_app.
  change (drop 1 (Common.quote +:+ v +:+ Common.quote +:+ ","))
    with (v +:+ Common.quote +:+ ",").
  rewrite <- app_assoc, endswith_app.
  change 1%nat with (String.length ","). rewrite drop_last_app.
  rewrite endswith_app.
  change (String.length ",") with (String.length Common.quote).
  by rewrite drop_last_app.
Qed.

Lemma settings_line_quoted_value_witness :
  Common.settings_line
    ("    SQL_HOST     " +:+ "="
     +:+ (" " +:+ Common.quote +:+ "127.0.0.1" +:+ Common.quote +:+ ",")
     +:+ Common.newline)
    (∅, false)
  = Some (<[strip "    SQL_HOST     " := "127.0.0.1"]> ∅, true).
Proof.
  apply (settings_line_quoted_value "    SQL_HOST     "
           (" " +:+ Common.quote +:+ "127.0.0.1" +:+ Common.quote +:+ ",")
           "127.0.0.1" ∅ false); reflexivity.
Defined.

(** ** The fixtures selected from a comparison of revisions *)

Lemma triggers_last_permutation (root_path : string) (l : list string) :
  Permutation (triggers_last root_path l) l.
Proof.
  unfold triggers_last.
  destruct (list_index (triggers_file root_path) l) as [i|] eqn:Ei; [|done].
  rewrite (list_index_nth _ _ _ Ei). apply pop_permutation.
  by apply list_index_nth.
Qed.

Lemma diff_files_In (t : tree) (root_path : string)
    (sql_diffs : list (option string)) (import_files : list string)
    (file : string) :
  Forall is_Some sql_diffs ->
  In file (diff_files t root_path sql_diffs import_files)
  <-> In file import_files
      \/ exists b_path,
          In (Some b_path) sql_diffs
          /\ file = path_join root_path b_path
          /\ path_exists t file = true.
Proof.
  intros Hall. revert import_files.
  induction Hall as [|d sql_diffs [b ->] _ IH]; intros import_files.
  - cbn [diff_files In]. split; [tauto|]. intros [Hin|(b & [] & _)].
    exact Hin.
  - cbn [diff_files]. rewrite IH. split.
    + intros [Hin|(b' & Hin & -> & He)].
      * destruct (path_exists t (path_join root_path b)) eqn:Eb;
          [|by left].
        apply in_app_iff in Hin as [Hin|[<-|[]]]; [by left|].
        right. exists b. cbn. tauto.
      * right. exists b'. cbn. tauto.
    + intros [Hin|(b' & [[= ->]|Hin] & -> & He)].
      * left. destruct (path_exists t (path_join root_path b)); [|done].
        apply in_app_iff. tauto.
      * left. rewrite He. apply in_app_iff. cbn. tauto.
      * right. by exists b'.
Qed.

(** X22. With a [db_ver] and a version, the fixtures selected are the
    files of the comparison that exist, and nothing else is asked of
    them: a file of a protected table, or one whose name does not end in
    [.sql], is selected as well. Every difference is taken to have a
    [b_path]. *)
Theorem diff_selects_existing_files (cfg : Common.configs)
    (version : string) (t : tree) (root_path : string)
    (sql_diffs : list (option string)) (file : string) :
  truthy (Common.db_ver cfg) = true ->
  version <> EmptyString ->
  diff_b_paths t (default EmptyString (Common.db_ver cfg)) version
    (sql_dir root_path) = Ok sql_diffs ->
  Forall is_Some sql_diffs ->
  In file (sql_files cfg version t root_path)
  <-> exists b_path,
      In (Some b_path) sql_diffs
      /\ file = path_join root_path b_path
      /\ path_exists t file = true.
Proof.
  intros Hd Hv Hdiff Hall.
  assert (In file (sql_files cfg version t root_path)
          <-> In file (changed_files cfg version t root_path)) as ->.
  { unfold sql_files.
    rewrite <- (sorted_In file (changed_files cfg version t root_path)).
    split; apply Permutation_in;
      [|symmetry]; apply triggers_last_permutation. }
  unfold changed_files. rewrite Hd.
  assert (truthy (Some version) = true) as ->.
  { cbn. by destruct version. }
  cbn [andb]. rewrite Hdiff, (diff_files_In _ _ _ _ _ Hall).
  cbn [In]. tauto.
Qed.

Lemma diff_selects_existing_files_witness :
  In "/srv/sql/chars.sql"
    (sql_files stale_configs "0a1b2c3d" changed_tree "/srv").
Proof.
  apply (diff_selects_existing_files stale_configs "0a1b2c3d" changed_tree
           "/srv" [Some "sql/zones.sql"; Some "sql/chars.sql"]
           "/srv/sql/chars.sql");
    [reflexivity|done|reflexivity|by repeat constructor|].
  exists "sql/chars.sql". cbn. tauto.
Defined.

(** * The values written, parsed back *)

Lemma parse_quoted_quote (rest : string) :
  parse_quoted (String "\" (String "'" rest))
  = String "'" <$> parse_quoted rest.
Proof. reflexivity. Qed.

Lemma parse_quoted_other (c : ascii) (rest : string) :
  c <> "'"%char -> c <> "\"%char ->
  parse_quoted (String c rest) = String c <$> parse_quoted rest.
Proof.
  intros Hq Hb. cbn [parse_quoted].
  destruct (Ascii.eqb_spec c "'"); [done|].
  by destruct (Ascii.eqb_spec c "\").
Qed.



















Lemma prefix_nil (s : string) : String.prefix EmptyString s = true.
Proof. by destruct s. Qed.

Section ParsedBack.
Context {F : Type} `{FloatRepr F}.


Lemma parse_literal_quoted_text (env : list (string * string)) (s : string) :
  parse_literal (F := F) Text env (quoted s)
  = VStr <$> parse_quoted (s +:+ "'").
Proof.
  unfold parse_literal, quoted, startswith. rewrite !app_cons, app_nil_l.
  cbn [String.eqb Ascii.eqb Bool.eqb String.prefix drop].
  destruct (ascii_dec "'" "'"); [|done]. by rewrite prefix_nil.
Qed.





End ParsedBack.


(** ** A backslash at the end of a [str] *)

Lemma parse_quoted_open (s : string) :
  find "\" s = None -> parse_quoted (escape s +:+ "\'") = None.
Proof.
  induction s as [|c s IH]; intros Hn; [done|].
  apply find_char_none in Hn as [Hc Hn]. rewrite escape_cons.
  destruct (Ascii.eqb_spec c "'") as [->|Hq].
  - rewrite !app_cons, parse_quoted_quote, (IH Hn). done.
  - rewrite app_cons, (parse_quoted_other _ _ Hq Hc), (IH Hn). done.
Qed.

(** X23. A [str] that ends in a backslash is written without a backslash
    before it, so that the closing quote is read as an escaped quote: the
    text written is no literal, and the value is not parsed back. *)
Theorem backslash_not_parsed_back {F : Type} `{FloatRepr F}
    (table_name : string) (description : list column) (vars : dict)
    (i : nat) (env : list (string * string)) (s text : string) :
  contains "\" s = false ->
  format_value table_name description vars i (VStr (F := F) (s +:+ "\"))
  = Ok text ->
  text = "'" +:+ escape s +:+ "\'"
  /\ parse_literal (F := F) Text env text = None.
Proof.
  unfold contains. intros Hn. cbn [format_value]. intros [= <-].
  assert (escape (s +:+ "\") = escape s +:+ "\") as ->.
  { unfold escape. by rewrite replace_app. }
  assert (quoted (escape s +:+ "\") = "'" +:+ escape s +:+ "\'") as Hq.
  { unfold quoted. by rewrite !app_assoc. }
  split; [exact Hq|].
  rewrite parse_literal_quoted_text, app_assoc, parse_quoted_open; [done|].
  by destruct (find "\" s).
Qed.

Lemma backslash_not_parsed_back_witness :
  format_value "zones" [] [] 1 (VStr (F := Empty_set) ("C:" +:+ "\"))
  = Ok ("'" +:+ escape "C:" +:+ "\'")
  /\ parse_literal (F := Empty_set) Text [] ("'" +:+ escape "C:" +:+ "\'")
     = None.
Proof.
  split; [reflexivity|].
  apply (backslash_not_parsed_back "zones" [] [] 1 [] "C:"
           ("'" +:+ escape "C:" +:+ "\'")); reflexivity.
Defined.
